(** * The support-ticket routing of [supportscript.py]

    A shallow embedding of the ticket classifier, the customer lookup, the
    customer-id extractor and the routing procedure, with the completion
    service and the relational store as an explicit world that the code
    reads and changes. *)

From Stdlib Require Import ZArith NArith String Ascii List Floats Lia.
From stdpp Require Import gmap list option.

(** ** Python strings

    A Python [str] is a sequence of code points: [list N].  Literals of the
    source are written with [u]; a double quote inside a literal is the code
    point 34 (see [q]). *)

Definition u (s : string) : list N := N_of_ascii <$> list_ascii_of_string s.

Definition q (s : string) : list N := [34%N] ++ u s ++ [34%N].

(** [sep.join(parts)] *)
Fixpoint py_join (sep : list N) (parts : list (list N)) : list N :=
  match parts with
  | [] => []
  | [p] => p
  | p :: ps => p ++ sep ++ py_join sep ps
  end.

Definition unlines (ls : list (list N)) : list N := py_join [10%N] ls.

(** [str.isspace] on one code point: the white space that [str.strip]
    removes. *)
Definition py_isspace (c : N) : bool :=
  ((9 <=? c) && (c <=? 13) || (28 <=? c) && (c <=? 32)
   || (c =? 133) || (c =? 160) || (c =? 5760)
   || (8192 <=? c) && (c <=? 8202)
   || (c =? 8232) || (c =? 8233) || (c =? 8239) || (c =? 8287)
   || (c =? 12288))%N.

Fixpoint lstrip (s : list N) : list N :=
  match s with
  | c :: cs => if py_isspace c then lstrip cs else s
  | [] => []
  end.

Definition rstrip (s : list N) : list N := rev (lstrip (rev s)).

Definition strip (s : list N) : list N := rstrip (lstrip s).

Fixpoint startswith (s prefix : list N) : bool :=
  match prefix, s with
  | [], _ => true
  | p :: ps, c :: cs => (c =? p)%N && startswith cs ps
  | _ :: _, [] => false
  end.

(** [s[start:stop]] with Python's treatment of negative and out-of-range
    bounds. *)
Definition slice_bound (len i : Z) : Z :=
  if (i <? 0)%Z then Z.max 0 (len + i) else Z.min i len.

Definition py_slice (s : list N) (start stop : Z) : list N :=
  let len := Z.of_nat (length s) in
  let a := slice_bound len start in
  let b := slice_bound len stop in
  take (Z.to_nat (b - a)) (drop (Z.to_nat a) s).

(** [needle in hay] on strings. *)
Fixpoint py_in (needle hay : list N) : bool :=
  startswith hay needle ||
  match hay with
  | [] => false
  | _ :: hay' => py_in needle hay'
  end.

(** ** Dates

    [datetime.date], as the driver hands a [date] column over, and
    [strftime('%Y-%m-%d')]: four, two and two decimal digits. *)

Record date := Date { year : N; month : N; day : N }.

Definition digit (n : N) : N := (48 + n mod 10)%N.

Definition strftime_Ymd (d : date) : list N :=
  [digit (year d / 1000); digit (year d / 100); digit (year d / 10); digit (year d);
   45%N;
   digit (month d / 10); digit (month d);
   45%N;
   digit (day d / 10); digit (day d)].

Definition is_digit (c : N) : bool := ((48 <=? c) && (c <=? 57))%N.

(** The shape [YYYY-MM-DD]. *)
Definition is_Ymd (s : list N) : bool :=
  match s with
  | [y1; y2; y3; y4; d1; m1; m2; d2; a1; a2] =>
      forallb is_digit [y1; y2; y3; y4; m1; m2; a1; a2]
      && (d1 =? 45)%N && (d2 =? 45)%N
  | _ => false
  end.

(** Reading a [YYYY-MM-DD] string back. *)
Definition digit_val (c : N) : N := (c - 48)%N.

Definition parse_Ymd (s : list N) : option date :=
  match s with
  | [y1; y2; y3; y4; d1; m1; m2; d2; a1; a2] =>
      if is_Ymd s then
        Some (Date (1000 * digit_val y1 + 100 * digit_val y2
                    + 10 * digit_val y3 + digit_val y4)%N
                   (10 * digit_val m1 + digit_val m2)%N
                   (10 * digit_val a1 + digit_val a2)%N)
      else None
  | _ => None
  end.

(** The range of [datetime.date]. *)
Definition valid_date (d : date) : Prop :=
  (1 <= year d <= 9999 /\ 1 <= month d <= 12 /\ 1 <= day d <= 31)%N.

(** ** Python values

    What [json.loads] can return, and what a row of the store holds. *)

#[warnings="-register-all"]
Inductive pyval :=
| PyNone
| PyBool (b : bool)
| PyInt (z : Z)
| PyFloat (f : float)
| PyStr (s : list N)
| PyList (l : list pyval)
| PyDict (d : gmap (list N) pyval)
| PyDate (d : date).

Abbreviation dict := (gmap (list N) pyval) (only parsing).

(** Truth value of an object, as [if x:] and [not x] take it. *)
Definition py_truthy (v : pyval) : bool :=
  match v with
  | PyNone => false
  | PyBool b => b
  | PyInt z => negb (z =? 0)%Z
  | PyFloat f => negb (PrimFloat.eqb f 0%float)
  | PyStr s => match s with [] => false | _ => true end
  | PyList l => match l with [] => false | _ => true end
  | PyDict d => negb (bool_decide (dom d = ∅))
  | PyDate _ => true
  end.

(** A [str] or [None], a [dict] or [None]. *)
Definition opt_str (o : option (list N)) : pyval :=
  match o with Some s => PyStr s | None => PyNone end.

Definition opt_dict (o : option (gmap (list N) pyval)) : pyval :=
  match o with Some d => PyDict d | None => PyNone end.

Definition opt_date (o : option date) : pyval :=
  match o with Some d => PyDate d | None => PyNone end.

Definition opt_list (o : option (list (list N))) : pyval :=
  match o with Some l => PyList (PyStr <$> l) | None => PyNone end.

(** ** Exceptions and outcomes *)

Inductive exn :=
| KeyError (key : list N)
| TypeError (msg : list N)
| AttributeError (msg : list N)
| Error (msg : list N).

(** [str(e)] *)
Definition exn_str (e : exn) : list N :=
  match e with
  | KeyError k => [39%N] ++ k ++ [39%N]
  | TypeError m | AttributeError m | Error m => m
  end.

Inductive outcome (A : Type) :=
| Returns (a : A)
| Raises (e : exn).
Arguments Returns {A} a.
Arguments Raises {A} e.

Definition type_name (v : pyval) : list N :=
  match v with
  | PyNone => u "NoneType"
  | PyBool _ => u "bool"
  | PyInt _ => u "int"
  | PyFloat _ => u "float"
  | PyStr _ => u "str"
  | PyList _ => u "list"
  | PyDict _ => u "dict"
  | PyDate _ => u "datetime.date"
  end.

(** [v[key]] for a string key: only a dict holding the key answers. *)
Definition py_getitem (v : pyval) (key : list N) : outcome pyval :=
  match v with
  | PyDict d =>
      match d !! key with
      | Some x => Returns x
      | None => Raises (KeyError key)
      end
  | PyStr _ => Raises (TypeError (u "string indices must be integers, not 'str'"))
  | PyList _ => Raises (TypeError (u "list indices must be integers or slices, not str"))
  | _ => Raises (TypeError ([39%N] ++ type_name v ++ u "' object is not subscriptable"))
  end.

(** [v[key] = x] for a string key: only a dict takes it. *)
Definition py_setitem (v : pyval) (key : list N) (x : pyval)
  : outcome (gmap (list N) pyval) :=
  match v with
  | PyDict d => Returns (<[key := x]> d)
  | PyList _ => Raises (TypeError (u "list indices must be integers or slices, not str"))
  | _ => Raises (TypeError ([39%N] ++ type_name v ++ u "' object does not support item assignment"))
  end.

(** ** The world: completion service and relational store *)

(** One call of [client.chat.completions.create]: it raises, or it answers
    with a message whose [content] is a string or [None]. *)
Inductive llm_outcome :=
| LlmRaises (e : list N)
| LlmReturns (content : option (list N)).

(** A row of [customer_support]; [customer_id] is the key of the table. *)
Record customer_row := CustomerRow {
  name : option (list N);
  email : option (list N);
  plan : option (list N);
  join_date : option date;
  last_payment : option date;
  support_history : option (list (list N))
}.

(** A row of [tickets]; [ticket_id] is the key of the table. *)
Record ticket_row := TicketRow {
  t_customer_id : option (list N);
  t_ticket_type : pyval;
  t_urgency : pyval;
  t_requires_customer_data : pyval;
  t_requires_technical_help : pyval;
  t_customer_sentiment : pyval;
  t_estimated_resolution_time : pyval;
  t_incoming_content : list N;
  t_recommended_answer : option (list N)
}.

(** The five statements of the source. *)
Inductive query :=
| InsertTicket (customer_id : option (list N))
    (ticket_type urgency requires_customer_data requires_technical_help
     customer_sentiment estimated_resolution_time : pyval)
    (incoming_content : list N)
| UpdateRecommendedAnswer (recommended_answer : option (list N)) (ticket_id : pyval)
| SelectBilling (customer_id : list N)
| SelectHistory (customer_id : list N)
| SelectFull (customer_id : list N).

(** What can go wrong in one session with the store. *)
Inductive fault :=
| ConnectFails (e : list N)
| ExecuteFails (e : list N)
| CommitFails (e : list N).

(** An open connection, with the fault (if any) that awaits it. *)
Record conn := Conn { session_fault : option fault }.

(** A write that is executed and not yet committed. *)
Inductive write :=
| WInsert (ticket_id : Z) (row : ticket_row)
| WUpdate (ticket_id : pyval) (recommended_answer : option (list N)).

(** Entries of the agents' methods, as a spy on them records them. *)
Inductive call :=
| ExtractCustomerId (ticket_content : list N)
| AnalyzeTicket (ticket_content : list N) (customer_id : option (list N))
| QueryCustomerInfo (customer_id : option (list N)) (query_type : list N)
| SolveTechnicalIssue (ticket_content : list N) (customer_info : option (gmap (list N) pyval))
| ComposeReply (ticket_analysis : gmap (list N) pyval)
    (customer_info : option (gmap (list N) pyval))
    (technical_solution : option (list N)) (ticket_content : list N)
| UpdateTicketRecommendation (ticket_id : pyval) (recommended_answer : option (list N)).

(** Lines printed by the code that talks to the store. *)
Inductive log_line :=
| LogConnectionError (e : exn)
| LogSavingTicket
| LogSaveNoConnection
| LogTicketSaved (ticket_id : pyval)
| LogErrorSavingTicket (e : exn)
| LogUpdatingTicket (ticket_id : pyval)
| LogUpdateNoConnection
| LogTicketUpdated (ticket_id : pyval)
| LogErrorUpdatingTicket (e : exn)
| LogQueryingCustomer (customer_id : option (list N))
| LogQueryError (e : exn).

Inductive event :=
| Call (c : call)
| LlmRequest (system_prompt user_prompt : list N)
| DbConnect
| DbExecute (q : query)
| DbCommit
| DbRollback
| DbClose
| Print (l : log_line).

Record world := World {
  llm : list N -> list N -> llm_outcome;
  customer_support : gmap (list N) customer_row;
  tickets : gmap Z ticket_row;
  next_ticket_id : Z;
  faults : list (option fault);
  pending : option write;
  trace : list event
}.

Definition add_event (e : event) (w : world) : world :=
  World (llm w) (customer_support w) (tickets w) (next_ticket_id w)
        (faults w) (pending w) (trace w ++ [e]).

Definition set_faults (fs : list (option fault)) (w : world) : world :=
  World (llm w) (customer_support w) (tickets w) (next_ticket_id w)
        fs (pending w) (trace w).

Definition set_pending (p : option write) (w : world) : world :=
  World (llm w) (customer_support w) (tickets w) (next_ticket_id w)
        (faults w) p (trace w).

Definition set_next_ticket_id (n : Z) (w : world) : world :=
  World (llm w) (customer_support w) (tickets w) n
        (faults w) (pending w) (trace w).

Definition set_tickets (t : gmap Z ticket_row) (w : world) : world :=
  World (llm w) (customer_support w) t (next_ticket_id w)
        (faults w) (pending w) (trace w).

(** ** Computations: state and exceptions *)

Definition M (A : Type) : Type := world -> outcome A * world.

Definition ret {A} (a : A) : M A := fun w => (Returns a, w).

Definition raise {A} (e : exn) : M A := fun w => (Raises e, w).

Definition bind {A B} (m : M A) (k : A -> M B) : M B :=
  fun w =>
    match m w with
    | (Returns a, w') => k a w'
    | (Raises e, w') => (Raises e, w')
    end.

Notation "x <- m ;; k" := (bind m (fun x => k))
  (at level 100, m at next level, right associativity).
Notation "m ;; k" := (bind m (fun _ => k))
  (at level 100, right associativity).

Definition lift {A} (o : outcome A) : M A := fun w => (o, w).

(** [try: body] / [except Exception as e: handler e] *)
Definition try_except {A} (body : M A) (handler : exn -> M A) : M A :=
  fun w =>
    match body w with
    | (Returns a, w') => (Returns a, w')
    | (Raises e, w') => handler e w'
    end.

(** [try: body] / [finally: cleanup] *)
Definition try_finally {A} (body : M A) (cleanup : M unit) : M A :=
  fun w =>
    match body w with
    | (r, w') =>
        match cleanup w' with
        | (Returns _, w'') => (r, w'')
        | (Raises e, w'') => (Raises e, w'')
        end
    end.

Definition emit (e : event) : M unit := fun w => (Returns tt, add_event e w).

Definition print (l : log_line) : M unit := emit (Print l).

(** ** The store's driver *)

(** [psycopg2.connect]: the next session of the store begins, or fails. *)
Definition psycopg2_connect : M conn :=
  fun w =>
    let w1 := add_event DbConnect w in
    match faults w with
    | [] => (Returns (Conn None), w1)
    | Some (ConnectFails e) :: fs => (Raises (Error e), set_faults fs w1)
    | f :: fs => (Returns (Conn f), set_faults fs w1)
    end.

Definition billing_row (r : customer_row) : gmap (list N) pyval :=
  list_to_map
    [(u "name", opt_str (name r));
     (u "plan", opt_str (plan r));
     (u "last_payment", opt_date (last_payment r));
     (u "status", PyStr (u "Active"))].

Definition history_row (r : customer_row) : gmap (list N) pyval :=
  list_to_map
    [(u "name", opt_str (name r));
     (u "support_history", opt_list (support_history r));
     (u "join_date", opt_date (join_date r))].

Definition full_row (customer_id : list N) (r : customer_row) : gmap (list N) pyval :=
  list_to_map
    [(u "customer_id", PyStr customer_id);
     (u "name", opt_str (name r));
     (u "email", opt_str (email r));
     (u "plan", opt_str (plan r));
     (u "join_date", opt_date (join_date r));
     (u "last_payment", opt_date (last_payment r));
     (u "support_history", opt_list (support_history r))].

(** The effect of a statement inside the open transaction, and the row
    that [fetchone] will find. *)
Definition run_statement (s : query) (w : world)
  : option (gmap (list N) pyval) * world :=
  match s with
  | InsertTicket cid ty ur rc rt se er content =>
      let id := next_ticket_id w in
      (Some {[ u "ticket_id" := PyInt id ]},
       set_pending (Some (WInsert id (TicketRow cid ty ur rc rt se er content None)))
         (set_next_ticket_id (id + 1) w))
  | UpdateRecommendedAnswer answer id =>
      (None, set_pending (Some (WUpdate id answer)) w)
  | SelectBilling cid => (billing_row <$> customer_support w !! cid, w)
  | SelectHistory cid => (history_row <$> customer_support w !! cid, w)
  | SelectFull cid => (full_row cid <$> customer_support w !! cid, w)
  end.

Definition set_recommended_answer (answer : option (list N)) (r : ticket_row)
  : ticket_row :=
  TicketRow (t_customer_id r) (t_ticket_type r) (t_urgency r)
            (t_requires_customer_data r) (t_requires_technical_help r)
            (t_customer_sentiment r) (t_estimated_resolution_time r)
            (t_incoming_content r) answer.

Definition apply_write (p : write) (t : gmap Z ticket_row) : gmap Z ticket_row :=
  match p with
  | WInsert id row => <[id := row]> t
  | WUpdate (PyInt id) answer => alter (set_recommended_answer answer) id t
  | WUpdate _ _ => t
  end.

(** [cursor.execute(statement, parameters)]; the result is what
    [cursor.fetchone()] returns afterwards. *)
Definition cursor_execute (c : conn) (s : query) : M (option (gmap (list N) pyval)) :=
  fun w =>
    let w1 := add_event (DbExecute s) w in
    match session_fault c with
    | Some (ExecuteFails e) => (Raises (Error e), w1)
    | _ => let '(row, w2) := run_statement s w1 in (Returns row, w2)
    end.

(** [conn.commit()] *)
Definition conn_commit (c : conn) : M unit :=
  fun w =>
    let w1 := add_event DbCommit w in
    match session_fault c with
    | Some (CommitFails e) => (Raises (Error e), w1)
    | _ =>
        match pending w1 with
        | Some p => (Returns tt, set_pending None (set_tickets (apply_write p (tickets w1)) w1))
        | None => (Returns tt, w1)
        end
    end.

(** [conn.rollback()] and [conn.close()]: what was not committed is
    dropped. Neither is taken to fail. *)
Definition conn_rollback (c : conn) : M unit :=
  fun w => (Returns tt, set_pending None (add_event DbRollback w)).

Definition conn_close (c : conn) : M unit :=
  fun w => (Returns tt, set_pending None (add_event DbClose w)).

(** [_get_connection], the same in both agents. *)
Definition _get_connection : M (option conn) :=
  try_except
    (c <- psycopg2_connect ;; ret (Some c))
    (fun e => print (LogConnectionError e) ;; ret None).

(** ** The Python library

    The JSON grammar of [json.loads], [json.dumps] and [repr] are the
    library's; the code only passes texts through them. *)

Class PyRuntime := {
  (** the value a JSON text denotes, [None] when the decoder raises *)
  json_decode : list N -> option pyval;
  json_dumps : pyval -> list N;
  py_repr : pyval -> list N
}.

Definition json_whitespace (c : N) : bool :=
  ((c =? 32) || (c =? 9) || (c =? 10) || (c =? 13))%N.

Fixpoint skip_json_whitespace (s : list N) : list N :=
  match s with
  | c :: cs => if json_whitespace c then skip_json_whitespace cs else s
  | [] => []
  end.

(** The characters on which the decoder's scanner starts a value: a double
    quote, a brace, a bracket, [n], [t], [f], a sign or a digit, [N], [I]. *)
Definition json_value_start (c : N) : bool :=
  ((c =? 34) || (c =? 123) || (c =? 91) || (c =? 110) || (c =? 116)
   || (c =? 102) || (c =? 45) || is_digit c || (c =? 78) || (c =? 73))%N.

Section Agents.

Context `{PyRuntime}.

(** [json.loads(s)]: leading white space is skipped and the next character
    must start a value (the decoder raises otherwise); then the grammar
    decides. *)
Definition json_parse (s : list N) : option pyval :=
  match skip_json_whitespace s with
  | c :: _ => if json_value_start c then json_decode s else None
  | [] => None
  end.

Definition json_loads (s : list N) : M pyval :=
  match json_parse s with
  | Some v => ret v
  | None => raise (Error (u "JSONDecodeError"))
  end.

(** [str(v)], as an f-string formats a value. *)
Definition py_str (v : pyval) : list N :=
  match v with
  | PyStr s => s
  | PyNone => u "None"
  | PyBool true => u "True"
  | PyBool false => u "False"
  | PyDate d => strftime_Ymd d
  | _ => py_repr v
  end.

(** [v == s] for a string literal [s]. *)
Definition py_eq_str (v : pyval) (s : list N) : bool :=
  match v with
  | PyStr x => bool_decide (x = s)
  | _ => false
  end.

(** [d.get(key)] and [d.get(key, default)] *)
Definition py_get (d : gmap (list N) pyval) (key : list N) (default : pyval) : pyval :=
  match d !! key with
  | Some v => v
  | None => default
  end.

(** A method of [str] called on a value that may be [None]. *)
Definition require_str (o : option (list N)) (method : string) : M (list N) :=
  match o with
  | Some s => ret s
  | None =>
      raise (AttributeError (u "'NoneType' object has no attribute '" ++ u method ++ [39%N]))
  end.

(** ** [call_openai] *)

(** [client.chat.completions.create(...)] followed by
    [response.choices[0].message.content]. *)
Definition chat_completions_create (system_prompt user_prompt : list N)
  : M (option (list N)) :=
  fun w =>
    let w1 := add_event (LlmRequest system_prompt user_prompt) w in
    match llm w system_prompt user_prompt with
    | LlmRaises e => (Raises (Error e), w1)
    | LlmReturns content => (Returns content, w1)
    end.

Definition call_openai (system_prompt user_prompt : list N) : M (option (list N)) :=
  try_except
    (chat_completions_create system_prompt user_prompt)
    (fun e => ret (Some (u "An error occurred: " ++ exn_str e))).

(** ** [TicketAnalyzerAgent] *)

Definition analyze_ticket_system_prompt : list N :=
  unlines
    [ u "You are a ticket routing specialist. Analyze support tickets and determine:";
      [];
      u "        1. ticket_type: " ++ q "billing" ++ u ", " ++ q "technical" ++ u ", " ++ q "account" ++ u ", " ++ q "general_inquiry" ++ u ", " ++ q "complaint";
      u "        2. urgency: " ++ q "low" ++ u ", " ++ q "medium" ++ u ", " ++ q "high" ++ u ", " ++ q "critical";
      u "        3. requires_customer_data: true/false (if we need to look up customer information)";
      u "        4. requires_technical_help: true/false (if technical problem-solving is needed)";
      u "        5. customer_sentiment: " ++ q "positive" ++ u ", " ++ q "neutral" ++ u ", " ++ q "frustrated" ++ u ", " ++ q "angry";
      u "        6. estimated_resolution_time: " ++ q "5min" ++ u ", " ++ q "15min" ++ u ", " ++ q "30min" ++ u ", " ++ q "1hour+";
      [];
      u "        Return valid JSON with these exact keys." ].

(** The fallback analysis of [analyze_ticket]. *)
Definition fallback_analysis : gmap (list N) pyval :=
  list_to_map
    [(u "ticket_type", PyStr (u "general_inquiry"));
     (u "urgency", PyStr (u "medium"));
     (u "requires_customer_data", PyBool true);
     (u "requires_technical_help", PyBool false);
     (u "customer_sentiment", PyStr (u "neutral"));
     (u "estimated_resolution_time", PyStr (u "15min"))].

Definition _save_ticket_to_db (analysis : pyval) (customer_id : option (list N))
    (incoming_content : list N) : M pyval :=
  print LogSavingTicket ;;
  conn <- _get_connection ;;
  match conn with
  | None => print LogSaveNoConnection ;; ret PyNone
  | Some conn =>
      try_finally
        (try_except
           (ticket_type <- lift (py_getitem analysis (u "ticket_type")) ;;
            urgency <- lift (py_getitem analysis (u "urgency")) ;;
            requires_customer_data <- lift (py_getitem analysis (u "requires_customer_data")) ;;
            requires_technical_help <- lift (py_getitem analysis (u "requires_technical_help")) ;;
            customer_sentiment <- lift (py_getitem analysis (u "customer_sentiment")) ;;
            estimated_resolution_time <- lift (py_getitem analysis (u "estimated_resolution_time")) ;;
            row <- cursor_execute conn
                     (InsertTicket customer_id ticket_type urgency requires_customer_data
                        requires_technical_help customer_sentiment
                        estimated_resolution_time incoming_content) ;;
            ticket_id <- lift (py_getitem (opt_dict row) (u "ticket_id")) ;;
            conn_commit conn ;;
            print (LogTicketSaved ticket_id) ;;
            ret ticket_id)
           (fun e =>
              print (LogErrorSavingTicket e) ;;
              conn_rollback conn ;;
              ret PyNone))
        (conn_close conn)
  end.

(** [f"Analyze this support ticket:\n\n{ticket_content}"] *)
Definition analyze_ticket_user_prompt (ticket_content : list N) : list N :=
  u "Analyze this support ticket:" ++ [10%N; 10%N] ++ ticket_content.

(** [if response.strip().startswith("```json"):
       response = response.strip()[7:-3].strip()] *)
Definition unfence (response : list N) : list N :=
  if startswith (strip response) (u "```json")
  then strip (py_slice (strip response) 7 (-3))
  else response.

Definition analyze_ticket (ticket_content : list N) (customer_id : option (list N))
  : M (gmap (list N) pyval) :=
  emit (Call (AnalyzeTicket ticket_content customer_id)) ;;
  let user_prompt := analyze_ticket_user_prompt ticket_content in
  analysis <-
    try_except
      (response <- call_openai analyze_ticket_system_prompt user_prompt ;;
       response <- require_str response "strip" ;;
       let response := unfence response in
       json_loads response)
      (fun _ => ret (PyDict fallback_analysis)) ;;
  ticket_id <- _save_ticket_to_db analysis customer_id ticket_content ;;
  lift (py_setitem analysis (u "ticket_id") ticket_id).

Definition update_ticket_recommendation (ticket_id : pyval)
    (recommended_answer : option (list N)) : M unit :=
  emit (Call (UpdateTicketRecommendation ticket_id recommended_answer)) ;;
  if negb (py_truthy ticket_id) then ret tt
  else
    print (LogUpdatingTicket ticket_id) ;;
    conn <- _get_connection ;;
    match conn with
    | None => print LogUpdateNoConnection ;; ret tt
    | Some conn =>
        try_finally
          (try_except
             (cursor_execute conn (UpdateRecommendedAnswer recommended_answer ticket_id) ;;
              conn_commit conn ;;
              print (LogTicketUpdated ticket_id))
             (fun e =>
                print (LogErrorUpdatingTicket e) ;;
                conn_rollback conn))
          (conn_close conn)
    end.

(** ** [DatabaseQueryAgent] *)

(** [v.strftime('%Y-%m-%d')] *)
Definition call_strftime (v : pyval) : outcome pyval :=
  match v with
  | PyDate d => Returns (PyStr (strftime_Ymd d))
  | _ => Raises (AttributeError ([39%N] ++ type_name v ++ u "' object has no attribute 'strftime'"))
  end.

(** [if key in d and d[key]: d[key] = d[key].strftime('%Y-%m-%d')] *)
Definition date_to_string (key : list N) (customer_data : gmap (list N) pyval)
  : M (gmap (list N) pyval) :=
  match customer_data !! key with
  | Some v =>
      if py_truthy v then
        s <- lift (call_strftime v) ;;
        ret (<[key := s]> customer_data)
      else ret customer_data
  | None => ret customer_data
  end.

(** [if 'support_history' in d and d['support_history'] is None:
       d['support_history'] = []] *)
Definition history_to_list (customer_data : gmap (list N) pyval)
  : gmap (list N) pyval :=
  match customer_data !! u "support_history" with
  | Some PyNone => <[u "support_history" := PyList []]> customer_data
  | _ => customer_data
  end.

(** [{"error": f"Invalid customer ID format: {customer_id}. Expected format: CUSTXXX"}] *)
Definition invalid_format_error (customer_id : option (list N)) : gmap (list N) pyval :=
  {[ u "error" := PyStr (u "Invalid customer ID format: " ++ py_str (opt_str customer_id)
                         ++ u ". Expected format: CUSTXXX") ]}.

(** [customer_id] is a string or [None]; [not customer_id] holds for [None]
    and for the empty string. *)
Definition query_customer_info (customer_id : option (list N)) (query_type : list N)
  : M (gmap (list N) pyval) :=
  emit (Call (QueryCustomerInfo customer_id query_type)) ;;
  print (LogQueryingCustomer customer_id) ;;
  match customer_id with
  | Some id =>
      if negb (py_truthy (PyStr id)) || negb (startswith id (u "CUST")) then
        ret (invalid_format_error customer_id)
      else
        conn <- _get_connection ;;
        match conn with
        | None => ret {[ u "error" := PyStr (u "Database connection failed") ]}
        | Some conn =>
            try_finally
              (try_except
                 (result <-
                    (if bool_decide (query_type = u "billing") then
                       cursor_execute conn (SelectBilling id)
                     else if bool_decide (query_type = u "history") then
                       cursor_execute conn (SelectHistory id)
                     else
                       cursor_execute conn (SelectFull id)) ;;
                  match result with
                  | Some row =>
                      let customer_data := row in
                      customer_data <- date_to_string (u "join_date") customer_data ;;
                      customer_data <- date_to_string (u "last_payment") customer_data ;;
                      ret (history_to_list customer_data)
                  | None =>
                      ret {[ u "error" := PyStr (u "Customer " ++ id
                                                 ++ u " not found in database") ]}
                  end)
                 (fun e =>
                    print (LogQueryError e) ;;
                    ret {[ u "error" := PyStr (u "Database query failed: " ++ exn_str e) ]}))
              (conn_close conn)
        end
  | None => ret (invalid_format_error customer_id)
  end.

(** ** [TechnicalProblemSolverAgent] *)

Definition solve_technical_issue_system_prompt : list N :=
  unlines
    [ u "You are a technical support expert. Analyze the technical issue and provide:";
      [];
      u "        1. A clear diagnosis of the problem";
      u "        2. Step-by-step solution instructions";
      u "        3. Preventive measures";
      u "        4. Escalation recommendation if needed";
      [];
      u "        Be technical but user-friendly in your explanations." ].

Definition solve_technical_issue (ticket_content : list N)
    (customer_info : option (gmap (list N) pyval)) : M (option (list N)) :=
  emit (Call (SolveTechnicalIssue ticket_content customer_info)) ;;
  let context :=
    u "Customer Info: "
    ++ (if py_truthy (opt_dict customer_info)
        then json_dumps (opt_dict customer_info)
        else u "Not available") in
  let user_prompt :=
    u "Technical Issue:" ++ [10%N] ++ ticket_content ++ [10%N; 10%N]
    ++ u "Context:" ++ [10%N] ++ context in
  call_openai solve_technical_issue_system_prompt user_prompt.

(** ** [EmailReplyAgent] *)

Definition compose_reply_system_prompt (ticket_analysis : gmap (list N) pyval) : list N :=
  unlines
    [ u "You are a professional customer support representative. Compose a helpful, empathetic email reply IN GERMAN.";
      [];
      u "Customer sentiment: " ]
  ++ py_str (py_get ticket_analysis (u "customer_sentiment") (PyStr (u "neutral")))
  ++ unlines
    [ [];
      u "Ticket urgency: " ]
  ++ py_str (py_get ticket_analysis (u "urgency") (PyStr (u "medium")))
  ++ unlines
    [ [];
      [];
      u "Guidelines:";
      u "- Write the entire email in German";
      u "- Be warm and professional (warm und professionell)";
      u "- Address the customer by name if available";
      u "- Acknowledge their specific concern";
      u "- Provide clear, actionable information";
      u "- Match the tone to their sentiment (more empathetic if frustrated/angry)";
      u "- Include relevant account information when helpful";
      u "- End with next steps or additional support offer";
      u "- Always sign the email with: " ++ [34%N] ++ u "Mit freundlichen Gr" ++ [252%N] ++ u "ssen,";
      u "Tobias Frei";
      u "VIVAVIS Schweiz AG" ++ [34%N];
      [];
      u "IMPORTANT: The entire email response must be written in German language." ].

(** [if customer_info and key in customer_info:
       context_info.append(f"{label}{customer_info[key]}")] *)
Definition context_line (label : list N) (key : list N)
    (customer_info : option (gmap (list N) pyval)) : list (list N) :=
  match customer_info with
  | Some d =>
      if py_truthy (PyDict d) then
        match d !! key with
        | Some v => [label ++ py_str v]
        | None => []
        end
      else []
  | None => []
  end.

Definition compose_reply (ticket_analysis : gmap (list N) pyval)
    (customer_info : option (gmap (list N) pyval))
    (technical_solution : option (list N)) (ticket_content : list N)
  : M (option (list N)) :=
  emit (Call (ComposeReply ticket_analysis customer_info technical_solution ticket_content)) ;;
  let system_prompt := compose_reply_system_prompt ticket_analysis in
  let context_info :=
    context_line (u "Customer: ") (u "name") customer_info
    ++ context_line (u "Plan: ") (u "plan") customer_info
    ++ (if py_truthy (opt_str technical_solution)
        then [u "Technical Solution: " ++ py_str (opt_str technical_solution)]
        else []) in
  let user_prompt :=
    u "Original ticket: " ++ ticket_content ++ [10%N; 10%N]
    ++ u "Available context:" ++ [10%N]
    ++ py_join [10%N] context_info ++ [10%N; 10%N]
    ++ u "Compose a professional email reply." in
  call_openai system_prompt user_prompt.

(** ** [IntelligentSupportOrchestrator] *)

Definition extract_customer_id_system_prompt : list N :=
  unlines
    [ u "You are a customer ID extraction specialist. Your job is to find customer IDs in support tickets.";
      [];
      u "Look for customer IDs that follow these patterns:";
      u "- CUST001, CUST002, CUST003, etc. (CUST followed by numbers)";
      u "- May appear after phrases like " ++ q "Customer ID:" ++ u ", " ++ q "Customer:" ++ u ", " ++ q "Account:" ++ u ", " ++ q "ID:";
      [];
      u "Rules:";
      u "1. ONLY extract valid customer IDs that start with " ++ q "CUST" ++ u " followed by numbers";
      u "2. If you find a valid customer ID, return ONLY that ID (e.g., " ++ q "CUST001" ++ u ")  ";
      u "3. If no valid customer ID is found, return " ++ q "NONE";
      u "4. Do not extract random text that happens to contain " ++ q "ID";
      u "5. Ignore endpoints, API paths, or other technical terms";
      [];
      u "Examples:";
      u "- " ++ q "Customer ID: CUST001" ++ u " " ++ [8594%N] ++ u " " ++ q "CUST001";
      u "- " ++ q "Customer: CUST002" ++ u " " ++ [8594%N] ++ u " " ++ q "CUST002" ++ u "  ";
      u "- " ++ q "Endpoint: /api/v2/data" ++ u " " ++ [8594%N] ++ u " " ++ q "NONE";
      u "- " ++ q "My ID is John123" ++ u " " ++ [8594%N] ++ u " " ++ q "NONE";
      [];
      u "Return ONLY the customer ID or " ++ q "NONE" ++ u ", nothing else." ].

(** [f"Extract the customer ID from this support ticket:\n\n{ticket_content}"] *)
Definition extract_customer_id_user_prompt (ticket_content : list N) : list N :=
  u "Extract the customer ID from this support ticket:" ++ [10%N; 10%N]
  ++ ticket_content.

Definition extract_customer_id (ticket_content : list N) : M (option (list N)) :=
  emit (Call (ExtractCustomerId ticket_content)) ;;
  let user_prompt := extract_customer_id_user_prompt ticket_content in
  try_except
    (response <- call_openai extract_customer_id_system_prompt user_prompt ;;
     response <- require_str response "strip" ;;
     let extracted_id := strip response in
     if bool_decide (extracted_id = u "NONE") || negb (startswith extracted_id (u "CUST"))
     then ret None
     else ret (Some extracted_id))
    (fun e => ret None).

Record routing_result := RoutingResult {
  final_reply : option (list N);
  analysis : gmap (list N) pyval;
  agents_used : list (list N);
  customer_info : option (gmap (list N) pyval);
  technical_solution : option (list N)
}.

(** The routing procedure. The banner and progress lines it prints are not
    recorded; the subscripts inside them are evaluated where the source
    evaluates them, since a missing key raises there. [gathered_data] is
    the pair of [customer_info] and [technical_solution]. *)
Definition process_support_ticket (ticket_content : list N)
    (customer_id : option (list N)) : M routing_result :=
  customer_id <-
    (if negb (py_truthy (opt_str customer_id))
     then extract_customer_id ticket_content
     else ret customer_id) ;;
  ticket_analysis <- analyze_ticket ticket_content customer_id ;;
  ticket_type <- lift (py_getitem (PyDict ticket_analysis) (u "ticket_type")) ;;
  urgency <- lift (py_getitem (PyDict ticket_analysis) (u "urgency")) ;;
  requires_customer_data <-
    lift (py_getitem (PyDict ticket_analysis) (u "requires_customer_data")) ;;
  requires_technical_help <-
    lift (py_getitem (PyDict ticket_analysis) (u "requires_technical_help")) ;;
  customer_sentiment <-
    lift (py_getitem (PyDict ticket_analysis) (u "customer_sentiment")) ;;
  customer_info <-
    (if py_truthy requires_customer_data && py_truthy (opt_str customer_id) then
       let query_type :=
         if py_eq_str ticket_type (u "billing") then u "billing"
         else if py_eq_str ticket_type (u "account") then u "history"
         else u "full" in
       customer_info <- query_customer_info customer_id query_type ;;
       ret (Some customer_info)
     else if py_truthy requires_customer_data then ret None
     else ret None) ;;
  technical_solution <-
    (if py_truthy requires_technical_help
     then solve_technical_issue ticket_content customer_info
     else ret None) ;;
  final_reply <-
    compose_reply ticket_analysis customer_info technical_solution ticket_content ;;
  (if py_truthy (py_get ticket_analysis (u "ticket_id") PyNone)
   then update_ticket_recommendation
          (py_get ticket_analysis (u "ticket_id") PyNone) final_reply
   else ret tt) ;;
  let agents_used :=
    [u "TicketAnalyzer"]
    ++ (if py_truthy (opt_dict customer_info) then [u "DatabaseAgent"] else [])
    ++ (if py_truthy (opt_str technical_solution) then [u "TechSolver"] else [])
    ++ [u "ReplyAgent"] in
  estimated_resolution_time <-
    lift (py_getitem (PyDict ticket_analysis) (u "estimated_resolution_time")) ;;
  ret (RoutingResult final_reply ticket_analysis agents_used customer_info
         technical_solution).

End Agents.

(** ** Observations on traces *)

(** The entries of the agents' methods, in order. *)
Definition call_of (e : event) : option call :=
  match e with
  | Call c => Some c
  | _ => None
  end.

Definition calls (t : list event) : list call := omap call_of t.

(** The calls of the customer lookup, with identifier and scope. *)
Definition lookup_of (c : call) : option (option (list N) * list N) :=
  match c with
  | QueryCustomerInfo customer_id query_type => Some (customer_id, query_type)
  | _ => None
  end.

Definition lookups (t : list event) : list (option (list N) * list N) :=
  omap lookup_of (calls t).

(** The calls of the classifier, with the identifier handed to it. *)
Definition classification_of (c : call) : option (list N * option (list N)) :=
  match c with
  | AnalyzeTicket ticket_content customer_id => Some (ticket_content, customer_id)
  | _ => None
  end.

Definition classifications (t : list event) : list (list N * option (list N)) :=
  omap classification_of (calls t).

(** The calls of [update_ticket_recommendation]. *)
Definition update_of (c : call) : option (pyval * option (list N)) :=
  match c with
  | UpdateTicketRecommendation ticket_id answer => Some (ticket_id, answer)
  | _ => None
  end.

Definition updates (t : list event) : list (pyval * option (list N)) :=
  omap update_of (calls t).

(** What reaches the store. *)
Definition store_call (e : event) : option event :=
  match e with
  | DbConnect | DbExecute _ | DbCommit | DbRollback | DbClose => Some e
  | _ => None
  end.

Definition store_calls (t : list event) : list event := omap store_call t.

(** What is printed. *)
Definition printed_line (e : event) : option log_line :=
  match e with
  | Print l => Some l
  | _ => None
  end.

Definition printed (t : list event) : list log_line := omap printed_line t.

(** The fault that awaits the next session, if any. *)
Definition next_fault (w : world) : option fault :=
  match faults w with
  | f :: _ => f
  | [] => None
  end.

(** A computation only appends events, each of them satisfying [Q]. *)
Definition only_emits {A} (Q : event -> Prop) (m : M A) : Prop :=
  forall w, exists evs, trace (m w).2 = trace w ++ evs /\ Forall Q evs.

Definition is_call (e : event) : bool :=
  match e with
  | Call _ => true
  | _ => false
  end.

(** [Q] holds of everything that is not the entry of an agent's method. *)
Definition admits_effects (Q : event -> Prop) : Prop :=
  forall e, is_call e = false -> Q e.

(** ** The classifier's failure cases *)

(** The completion service fails the classifier: the call raises (and
    [call_openai] hands back its error string), the message has no content,
    or the answer, unfenced, is not JSON. *)
Definition classification_fails `{PyRuntime} (w : world) (ticket_content : list N) : Prop :=
  match llm w analyze_ticket_system_prompt (analyze_ticket_user_prompt ticket_content) with
  | LlmRaises _ => True
  | LlmReturns None => True
  | LlmReturns (Some answer) => json_parse (unfence answer) = None
  end.

(** The insert of the fallback analysis. *)
Definition fallback_insert (customer_id : option (list N)) (ticket_content : list N)
  : query :=
  InsertTicket customer_id (PyStr (u "general_inquiry")) (PyStr (u "medium"))
    (PyBool true) (PyBool false) (PyStr (u "neutral")) (PyStr (u "15min"))
    ticket_content.

(** What reaches the store when a write [s] is attempted in a session that
    the fault [f] awaits. *)
Definition write_attempt (f : option fault) (s : query) : list event :=
  match f with
  | Some (ConnectFails _) => [DbConnect]
  | Some (ExecuteFails _) => [DbConnect; DbExecute s; DbRollback; DbClose]
  | Some (CommitFails _) => [DbConnect; DbExecute s; DbCommit; DbRollback; DbClose]
  | None => [DbConnect; DbExecute s; DbCommit; DbClose]
  end.

(** The identifier that [_save_ticket_to_db] returns for a well-formed
    analysis: the next serial of the store, or [None] when the session fails. *)
Definition saved_ticket_id (w : world) : pyval :=
  match next_fault w with
  | None => PyInt (next_ticket_id w)
  | Some _ => PyNone
  end.

(** ** A sample run-time and sample worlds *)

Definition billing_answer : list N :=
  u "{" ++ q "ticket_type" ++ u ": " ++ q "billing" ++ u ", "
  ++ q "urgency" ++ u ": " ++ q "low" ++ u ", "
  ++ q "requires_customer_data" ++ u ": true, "
  ++ q "requires_technical_help" ++ u ": false, "
  ++ q "customer_sentiment" ++ u ": " ++ q "neutral" ++ u ", "
  ++ q "estimated_resolution_time" ++ u ": " ++ q "15min" ++ u "}".

Definition billing_classification : gmap (list N) pyval :=
  list_to_map
    [(u "ticket_type", PyStr (u "billing"));
     (u "urgency", PyStr (u "low"));
     (u "requires_customer_data", PyBool true);
     (u "requires_technical_help", PyBool false);
     (u "customer_sentiment", PyStr (u "neutral"));
     (u "estimated_resolution_time", PyStr (u "15min"))].

Definition technical_answer : list N :=
  u "```json" ++ [10%N]
  ++ u "{" ++ q "ticket_type" ++ u ": " ++ q "technical" ++ u ", "
  ++ q "urgency" ++ u ": " ++ q "critical" ++ u ", "
  ++ q "requires_customer_data" ++ u ": false, "
  ++ q "requires_technical_help" ++ u ": true, "
  ++ q "customer_sentiment" ++ u ": " ++ q "frustrated" ++ u ", "
  ++ q "estimated_resolution_time" ++ u ": " ++ q "1hour+" ++ u "}"
  ++ [10%N] ++ u "```".

Definition technical_classification : gmap (list N) pyval :=
  list_to_map
    [(u "ticket_type", PyStr (u "technical"));
     (u "urgency", PyStr (u "critical"));
     (u "requires_customer_data", PyBool false);
     (u "requires_technical_help", PyBool true);
     (u "customer_sentiment", PyStr (u "frustrated"));
     (u "estimated_resolution_time", PyStr (u "1hour+"))].

(** A decoder that knows the two answers above, and a plain rendering of
    values: enough to run the code on the sample worlds. *)
Definition sample_decode (s : list N) : option pyval :=
  if bool_decide (s = billing_answer) then Some (PyDict billing_classification)
  else if bool_decide (s = unfence technical_answer) then
    Some (PyDict technical_classification)
  else None.

Definition sample_runtime : PyRuntime :=
  {| json_decode := sample_decode;
     json_dumps := fun v => u "{" ++ type_name v ++ u "}";
     py_repr := fun v => u "<" ++ type_name v ++ u ">" |}.

(** A completion service that answers each of the four prompts in a fixed
    way. *)
Definition sample_service (id_answer classifier_answer solver_answer : llm_outcome)
    (system_prompt user_prompt : list N) : llm_outcome :=
  if bool_decide (system_prompt = extract_customer_id_system_prompt) then id_answer
  else if bool_decide (system_prompt = analyze_ticket_system_prompt) then classifier_answer
  else if bool_decide (system_prompt = solve_technical_issue_system_prompt) then solver_answer
  else LlmReturns (Some (u "Guten Tag, vielen Dank fuer Ihre Anfrage.")).

(** A service that is down. *)
Definition failing_service (system_prompt user_prompt : list N) : llm_outcome :=
  LlmRaises (u "Connection error.").

Definition sample_customers : gmap (list N) customer_row :=
  list_to_map
    [(u "CUST001",
      CustomerRow (Some (u "Sarah Miller")) (Some (u "sarah@example.com"))
        (Some (u "Premium")) (Some (Date 2023 1 15)) (Some (Date 2024 9 1))
        (Some [u "Password reset"]));
     (u "CUST002",
      CustomerRow (Some (u "Mike Chen")) (Some (u "mike@techcorp.example"))
        (Some (u "Business")) None (Some (Date 2024 8 30)) None)].

Definition sample_world (service : list N -> list N -> llm_outcome)
    (fs : list (option fault)) : world :=
  World service sample_customers ∅ 1 fs None [].

Definition billing_ticket : list N :=
  unlines
    [ u "Subject: Frage zu meiner letzten Rechnung";
      u "Customer ID: CUST001";
      [];
      u "Hallo, ich habe meine Rechnung erhalten." ].

Definition labelled_ticket : list N := u "Customer ID: CUST007".

(** ** The lookup, as the specification words it *)

(** An identifier that passes the format check: not empty, starting with
    [CUST]. *)
Definition well_formed_id (customer_id : option (list N)) : bool :=
  match customer_id with
  | Some id => py_truthy (PyStr id) && startswith id (u "CUST")
  | None => false
  end.

(** A date is surfaced as its [YYYY-MM-DD] string, a null date as null. *)
Definition date_field (o : option date) : pyval :=
  match o with
  | Some d => PyStr (strftime_Ymd d)
  | None => PyNone
  end.

(** A history is surfaced as a sequence, a null history as the empty one. *)
Definition history_field (o : option (list (list N))) : pyval :=
  match o with
  | Some l => PyList (PyStr <$> l)
  | None => PyList []
  end.

(** The customer record of each scope. *)
Definition billing_record (r : customer_row) : gmap (list N) pyval :=
  list_to_map
    [(u "name", opt_str (name r));
     (u "plan", opt_str (plan r));
     (u "last_payment", date_field (last_payment r));
     (u "status", PyStr (u "Active"))].

Definition history_record (r : customer_row) : gmap (list N) pyval :=
  list_to_map
    [(u "name", opt_str (name r));
     (u "support_history", history_field (support_history r));
     (u "join_date", date_field (join_date r))].

Definition full_record (customer_id : list N) (r : customer_row) : gmap (list N) pyval :=
  list_to_map
    [(u "customer_id", PyStr customer_id);
     (u "name", opt_str (name r));
     (u "email", opt_str (email r));
     (u "plan", opt_str (plan r));
     (u "join_date", date_field (join_date r));
     (u "last_payment", date_field (last_payment r));
     (u "support_history", history_field (support_history r))].

Definition customer_record (query_type customer_id : list N) (r : customer_row)
  : gmap (list N) pyval :=
  if bool_decide (query_type = u "billing") then billing_record r
  else if bool_decide (query_type = u "history") then history_record r
  else full_record customer_id r.

(** The error objects of the lookup. *)
Definition connection_error : gmap (list N) pyval :=
  {[ u "error" := PyStr (u "Database connection failed") ]}.

Definition query_error (e : list N) : gmap (list N) pyval :=
  {[ u "error" := PyStr (u "Database query failed: " ++ e) ]}.

Definition not_found_error (customer_id : list N) : gmap (list N) pyval :=
  {[ u "error" := PyStr (u "Customer " ++ customer_id ++ u " not found in database") ]}.

(** What a lookup answers in a given world. *)
Definition lookup_answer `{PyRuntime} (w : world) (customer_id : option (list N))
    (query_type : list N) : gmap (list N) pyval :=
  match customer_id with
  | Some id =>
      if well_formed_id customer_id then
        match next_fault w with
        | Some (ConnectFails _) => connection_error
        | Some (ExecuteFails e) => query_error e
        | _ =>
            match customer_support w !! id with
            | Some r => customer_record query_type id r
            | None => not_found_error id
            end
        end
      else invalid_format_error customer_id
  | None => invalid_format_error customer_id
  end.

(** What reaches the store in a lookup. *)
Definition read_attempt (f : option fault) (s : query) : list event :=
  match f with
  | Some (ConnectFails _) => [DbConnect]
  | _ => [DbConnect; DbExecute s; DbClose]
  end.

Definition select_statement (query_type customer_id : list N) : query :=
  if bool_decide (query_type = u "billing") then SelectBilling customer_id
  else if bool_decide (query_type = u "history") then SelectHistory customer_id
  else SelectFull customer_id.

(** ** Customer identifiers in ticket texts *)

(** [CUST] followed by digits. *)
Definition cust_token (token : list N) : bool :=
  startswith token (u "CUST")
  && negb (bool_decide (drop 4 token = []))
  && forallb is_digit (drop 4 token).

(** The text holds the token after the label "Customer ID: ". *)
Definition labelled_with (ticket_content token : list N) : Prop :=
  exists before after,
    ticket_content = before ++ u "Customer ID: " ++ token ++ after.

(** What the extractor makes of an answer of the service. *)
Definition validated (o : llm_outcome) : option (list N) :=
  match o with
  | LlmReturns (Some answer) =>
      if bool_decide (strip answer = u "NONE") || negb (startswith (strip answer) (u "CUST"))
      then None
      else Some (strip answer)
  | _ => None
  end.

(** What [update_ticket_recommendation] prints in a session that the fault
    [f] awaits. *)
Definition update_log (f : option fault) (ticket_id : pyval) : list log_line :=
  match f with
  | Some (ConnectFails e) =>
      [LogUpdatingTicket ticket_id; LogConnectionError (Error e); LogUpdateNoConnection]
  | Some (ExecuteFails e) | Some (CommitFails e) =>
      [LogUpdatingTicket ticket_id; LogErrorUpdatingTicket (Error e)]
  | None => [LogUpdatingTicket ticket_id; LogTicketUpdated ticket_id]
  end.

(** ** The calls of a run *)

(** The scope that the routing picks for a ticket type. *)
Definition scope_for `{PyRuntime} (ticket_type : pyval) : list N :=
  if py_eq_str ticket_type (u "billing") then u "billing"
  else if py_eq_str ticket_type (u "account") then u "history"
  else u "full".

(** The calls that a returning run makes, in order, given the identifier
    [known] it goes on with and its result. *)
Definition run_calls `{PyRuntime} (ticket_content : list N)
    (customer_id known : option (list N)) (res : routing_result) : list call :=
  let a := analysis res in
  (if py_truthy (opt_str customer_id) then [] else [ExtractCustomerId ticket_content])
  ++ [AnalyzeTicket ticket_content known]
  ++ (if py_truthy (py_get a (u "requires_customer_data") PyNone)
         && py_truthy (opt_str known)
      then [QueryCustomerInfo known (scope_for (py_get a (u "ticket_type") PyNone))]
      else [])
  ++ (if py_truthy (py_get a (u "requires_technical_help") PyNone)
      then [SolveTechnicalIssue ticket_content (customer_info res)]
      else [])
  ++ [ComposeReply a (customer_info res) (technical_solution res) ticket_content]
  ++ (if py_truthy (py_get a (u "ticket_id") PyNone)
      then [UpdateTicketRecommendation (py_get a (u "ticket_id") PyNone) (final_reply res)]
      else []).

(** An event that is not a lookup under the empty identifier. *)
Definition no_empty_lookup (e : event) : Prop :=
  forall query_type, e <> Call (QueryCustomerInfo (Some []) query_type).

(** ** Sample worlds *)

(** Scenario A: a billing ticket that names CUST001; the service extracts
    the identifier and classifies the ticket as billing; the store is
    healthy. *)
Definition scenario_a : world :=
  sample_world
    (sample_service (LlmReturns (Some (u "CUST001")))
       (LlmReturns (Some billing_answer)) (LlmReturns None))
    [].

(** The classifier's answer is prose, and the commit of the insert fails. *)
Definition garbled_world : world :=
  sample_world
    (sample_service (LlmReturns (Some (u "NONE")))
       (LlmReturns (Some (u "Sorry, I cannot classify this ticket.")))
       (LlmReturns None))
    [Some (CommitFails (u "server closed the connection unexpectedly"))].

(** A technical ticket for which the solver answers with the empty string. *)
Definition silent_solver_world : world :=
  sample_world
    (sample_service (LlmReturns (Some (u "NONE")))
       (LlmReturns (Some technical_answer)) (LlmReturns (Some [])))
    [].

(** The store cannot be reached. *)
Definition unreachable_store : world :=
  sample_world failing_service [Some (ConnectFails (u "timeout expired"))].

(** The service answers the extractor with a blank before the identifier. *)
Definition padded_answer_world : world :=
  sample_world
    (sample_service (LlmReturns (Some (u " CUST001")))
       (LlmReturns (Some billing_answer)) (LlmReturns None))
    [].

(** The service answers the extractor with the token and a line break. *)
Definition token_answer_world : world :=
  sample_world
    (sample_service (LlmReturns (Some (u "CUST007" ++ [10%N])))
       (LlmReturns (Some billing_answer)) (LlmReturns None))
    [].

(** The value that a run returned, if it returned. *)
Definition returned {A} (r : outcome A * world) : option A :=
  match r.1 with
  | Returns a => Some a
  | Raises _ => None
  end.

Definition returns {A} (r : outcome A * world) : bool :=
  match r.1 with
  | Returns _ => true
  | Raises _ => false
  end.

(** The six fields of a classification. *)
Definition classification_fields : list (list N) :=
  [u "ticket_type"; u "urgency"; u "requires_customer_data";
   u "requires_technical_help"; u "customer_sentiment";
   u "estimated_resolution_time"].

(** ** Invariants of the world *)

(** A computation keeps an invariant of the world, however it ends. *)
Definition preserves {A} (I : world -> Prop) (m : M A) : Prop :=
  forall w, I w -> I (m w).2.

(** ** The protocol of the store *)

(** The store as a sequence of calls sees it: whether a connection is open,
    and the faults that await the coming sessions. *)
Definition store_state : Type := bool * list (option fault).

(** A connection is opened only when none is open, and it stays closed when
    the connection fails; statements, commits and rollbacks need the open
    connection; closing ends it. *)
Fixpoint store_protocol (st : store_state) (evs : list event) : option store_state :=
  match evs with
  | [] => Some st
  | e :: evs' =>
      match e, st with
      | DbConnect, (false, Some (ConnectFails _) :: fs) => store_protocol (false, fs) evs'
      | DbConnect, (false, fs) => store_protocol (true, tail fs) evs'
      | DbClose, (true, fs) => store_protocol (false, fs) evs'
      | (DbExecute _ | DbCommit | DbRollback), (true, fs) => store_protocol (true, fs) evs'
      | _, _ => None
      end
  end.

(** What goes over an open connection. *)
Definition session_op (e : event) : bool :=
  match e with
  | DbExecute _ | DbCommit | DbRollback => true
  | _ => false
  end.

(** A computation that works on an open connection: it sends statements,
    commits and rollbacks, and begins no session. *)
Definition in_session {A} (m : M A) : Prop :=
  forall w, exists ops,
    store_calls (trace (m w).2) = store_calls (trace w) ++ ops
    /\ forallb session_op ops = true
    /\ faults (m w).2 = faults w.

(** A computation talks to the store in whole sessions: what it adds to the
    store's calls leads from no open connection to no open connection, and
    uses up the faults of the sessions it began. *)
Definition follows_protocol {A} (m : M A) : Prop :=
  forall w, exists evs,
    store_calls (trace (m w).2) = store_calls (trace w) ++ evs
    /\ store_protocol (false, faults w) evs = Some (false, faults (m w).2).

(** ** What the classifier goes on with *)

(** The value that [analyze_ticket] hands to [_save_ticket_to_db]: what the
    answer of the completion service, unfenced, denotes as JSON, and the
    fallback analysis when the service gives no such answer. *)
Definition classified `{PyRuntime} (w : world) (ticket_content : list N) : pyval :=
  match llm w analyze_ticket_system_prompt (analyze_ticket_user_prompt ticket_content) with
  | LlmReturns (Some answer) =>
      match json_parse (unfence answer) with
      | Some v => v
      | None => PyDict fallback_analysis
      end
  | _ => PyDict fallback_analysis
  end.

(** The first of the six fields that an analysis lacks, in the order in
    which the routing procedure reads them. *)
Definition missing_field (d : gmap (list N) pyval) : option (list N) :=
  find (fun k => negb (bool_decide (is_Some (d !! k)))) classification_fields.

(** ** More sample worlds *)

Definition list_answer : list N := u "[]".

Definition partial_answer : list N :=
  u "{" ++ q "ticket_type" ++ u ": " ++ q "billing" ++ u ", "
  ++ q "urgency" ++ u ": " ++ q "low" ++ u "}".

Definition partial_classification : gmap (list N) pyval :=
  list_to_map
    [(u "ticket_type", PyStr (u "billing"));
     (u "urgency", PyStr (u "low"))].

(** A decoder that also knows a list and an object that lacks fields. *)
Definition loose_decode (s : list N) : option pyval :=
  if bool_decide (s = list_answer) then Some (PyList [])
  else if bool_decide (s = partial_answer) then Some (PyDict partial_classification)
  else sample_decode s.

Definition loose_runtime : PyRuntime :=
  {| json_decode := loose_decode;
     json_dumps := fun v => u "{" ++ type_name v ++ u "}";
     py_repr := fun v => u "<" ++ type_name v ++ u ">" |}.

(** The classifier's answer is a JSON list. *)
Definition list_answer_world : world :=
  sample_world
    (sample_service (LlmReturns (Some (u "NONE")))
       (LlmReturns (Some list_answer)) (LlmReturns None))
    [].

(** The classifier's answer is an object with two of the six fields. *)
Definition partial_answer_world : world :=
  sample_world
    (sample_service (LlmReturns (Some (u "NONE")))
       (LlmReturns (Some partial_answer)) (LlmReturns None))
    [].

(** ** Requests to the completion service *)

Definition request_of (e : event) : option (list N * list N) :=
  match e with
  | LlmRequest system_prompt user_prompt => Some (system_prompt, user_prompt)
  | _ => None
  end.

Definition requests (t : list event) : list (list N * list N) := omap request_of t.

(** Between two worlds nothing happened to the store: the tables, the
    serial, the sessions to come and the calls that reached it are the
    same. *)
Definition store_untouched (w w' : world) : Prop :=
  customer_support w' = customer_support w
  /\ tickets w' = tickets w
  /\ next_ticket_id w' = next_ticket_id w
  /\ faults w' = faults w
  /\ pending w' = pending w
  /\ store_calls (trace w') = store_calls (trace w).

(** The completion service is down, the store is healthy and empty. *)
Definition outage_world : world := sample_world failing_service [].

(** A ticket id that no row has. *)
Definition unknown_ticket_id : Z := 7.

(** A customer id in another format. *)
Definition malformed_id : list N := u "4711".

(** A fenced answer with white space around it. *)
Definition fenced_answer : list N :=
  [10%N] ++ u "```json" ++ ([10%N] ++ u "{}" ++ [10%N]) ++ u "```" ++ [32%N; 10%N].

(** * Properties *)

(** ** How computations extend the trace *)

Section Effects.

Context {A B : Type} (Q : event -> Prop).

Lemma only_emits_ret (a : A) : only_emits Q (ret a).
Proof. intros w. exists []. by rewrite app_nil_r. Qed.

Lemma only_emits_raise (e : exn) : only_emits Q (@raise A e).
Proof. intros w. exists []. by rewrite app_nil_r. Qed.

Lemma only_emits_lift (o : outcome A) : only_emits Q (lift o).
Proof. intros w. exists []. by rewrite app_nil_r. Qed.

Lemma only_emits_emit (e : event) : Q e -> only_emits Q (emit e).
Proof. intros He w. exists [e]. split; [done | by constructor]. Qed.

Lemma only_emits_bind (m : M A) (k : A -> M B) :
  only_emits Q m -> (forall a, only_emits Q (k a)) -> only_emits Q (bind m k).
Proof.
  intros Hm Hk w. unfold bind.
  destruct (Hm w) as (e1 & E1 & F1).
  destruct (m w) as [[a | e] w1]; simpl in *.
  - destruct (Hk a w1) as (e2 & E2 & F2).
    exists (e1 ++ e2). rewrite E2, E1, app_assoc. split; [done | by apply Forall_app].
  - by exists e1.
Qed.

Lemma only_emits_try_except (body : M A) (handler : exn -> M A) :
  only_emits Q body -> (forall e, only_emits Q (handler e)) ->
  only_emits Q (try_except body handler).
Proof.
  intros Hm Hk w. unfold try_except.
  destruct (Hm w) as (e1 & E1 & F1).
  destruct (body w) as [[a | e] w1]; simpl in *.
  - by exists e1.
  - destruct (Hk e w1) as (e2 & E2 & F2).
    exists (e1 ++ e2). rewrite E2, E1, app_assoc. split; [done | by apply Forall_app].
Qed.

Lemma only_emits_try_finally (body : M A) (cleanup : M unit) :
  only_emits Q body -> only_emits Q cleanup ->
  only_emits Q (try_finally body cleanup).
Proof.
  intros Hm Hk w. unfold try_finally.
  destruct (Hm w) as (e1 & E1 & F1).
  destruct (body w) as [r w1]; simpl in *.
  destruct (Hk w1) as (e2 & E2 & F2).
  exists (e1 ++ e2).
  destruct (cleanup w1) as [[[] | e] w2]; simpl in *;
    rewrite E2, E1, app_assoc; (split; [done | by apply Forall_app]).
Qed.

Lemma bind_returns (m : M A) (k : A -> M B) w a w1 :
  m w = (Returns a, w1) -> bind m k w = k a w1.
Proof. intros Hm. unfold bind. by rewrite Hm. Qed.

(** An event that [Q] admits is the only one a primitive appends. *)
Lemma only_emits_one (m : M A) (e : event) :
  admits_effects Q -> is_call e = false ->
  (forall w, trace (m w).2 = trace w ++ [e]) -> only_emits Q m.
Proof.
  intros HQ He Hm w. exists [e]. split; [apply Hm |].
  constructor; [by apply HQ | constructor].
Qed.

End Effects.

Create HintDb emits.

Ltac emits_step :=
  match goal with
  | |- only_emits _ (bind _ _) => apply only_emits_bind; [| intros ?]
  | |- only_emits _ (ret _) => apply only_emits_ret
  | |- only_emits _ (raise _) => apply only_emits_raise
  | |- only_emits _ (lift _) => apply only_emits_lift
  | |- only_emits _ (try_except _ _) => apply only_emits_try_except; [| intros ?]
  | |- only_emits _ (try_finally _ _) => apply only_emits_try_finally
  | |- only_emits _ (emit _) => apply only_emits_emit
  | |- only_emits _ (if ?b then _ else _) => destruct b eqn:?
  | |- only_emits _ (match ?x with _ => _ end) => destruct x eqn:?
  | |- only_emits _ (let _ := _ in _) => cbv zeta
  end.

Ltac emits := repeat first [ emits_step | solve [auto with emits] ].

(** A silent computation leaves an observation of the trace as it was. *)
Lemma only_emits_omap {A X} (sel : event -> option X) (m : M A) (w : world) :
  only_emits (fun e => sel e = None) m ->
  omap sel (trace (m w).2) = omap sel (trace w).
Proof.
  intros Hm. destruct (Hm w) as (evs & -> & F).
  rewrite omap_app. rewrite <- (app_nil_r (omap sel (trace w))) at 2. f_equal.
  induction F as [| e evs He _ IH]; [done |]. simpl. by rewrite He.
Qed.

Section AgentEffects.

Context `{PyRuntime} (Q : event -> Prop) (HQ : admits_effects Q).

Lemma chat_completions_create_emits sp up :
  only_emits Q (chat_completions_create sp up).
Proof.
  apply (only_emits_one _ _ (LlmRequest sp up)); [done | done |].
  intros w. unfold chat_completions_create. by destruct (llm w sp up).
Qed.

Lemma psycopg2_connect_emits : only_emits Q psycopg2_connect.
Proof.
  apply (only_emits_one _ _ DbConnect); [done | done |].
  intros w. unfold psycopg2_connect. by destruct (faults w) as [| [[]|] ?].
Qed.

Lemma cursor_execute_emits c s : only_emits Q (cursor_execute c s).
Proof.
  apply (only_emits_one _ _ (DbExecute s)); [done | done |].
  intros w. unfold cursor_execute.
  destruct (session_fault c) as [[]|]; try done; by destruct s.
Qed.

Lemma conn_commit_emits c : only_emits Q (conn_commit c).
Proof.
  apply (only_emits_one _ _ DbCommit); [done | done |].
  intros w. unfold conn_commit.
  destruct (session_fault c) as [[]|]; try done; by destruct (pending _).
Qed.

Lemma conn_rollback_emits c : only_emits Q (conn_rollback c).
Proof. by apply (only_emits_one _ _ DbRollback). Qed.

Lemma conn_close_emits c : only_emits Q (conn_close c).
Proof. by apply (only_emits_one _ _ DbClose). Qed.

Lemma print_emits l : only_emits Q (print l).
Proof. by apply (only_emits_one _ _ (Print l)). Qed.

Lemma json_loads_emits s : only_emits Q (json_loads s).
Proof. unfold json_loads. emits. Qed.

Lemma require_str_emits o m : only_emits Q (require_str o m).
Proof. unfold require_str. emits. Qed.

#[local] Hint Resolve chat_completions_create_emits psycopg2_connect_emits
  cursor_execute_emits conn_commit_emits conn_rollback_emits conn_close_emits
  print_emits json_loads_emits require_str_emits : emits.

Lemma call_openai_emits sp up : only_emits Q (call_openai sp up).
Proof. unfold call_openai. emits. Qed.

Lemma _get_connection_emits : only_emits Q _get_connection.
Proof. unfold _get_connection. emits. Qed.

#[local] Hint Resolve call_openai_emits _get_connection_emits : emits.

Lemma _save_ticket_to_db_emits a c t : only_emits Q (_save_ticket_to_db a c t).
Proof. unfold _save_ticket_to_db. emits. Qed.

Lemma date_to_string_emits k d : only_emits Q (date_to_string k d).
Proof. unfold date_to_string. emits. Qed.

#[local] Hint Resolve _save_ticket_to_db_emits date_to_string_emits : emits.

Lemma analyze_ticket_emits t c :
  Q (Call (AnalyzeTicket t c)) -> only_emits Q (analyze_ticket t c).
Proof. intros. unfold analyze_ticket. emits. Qed.

Lemma update_ticket_recommendation_emits i a :
  Q (Call (UpdateTicketRecommendation i a)) ->
  only_emits Q (update_ticket_recommendation i a).
Proof. intros. unfold update_ticket_recommendation. emits. Qed.

Lemma query_customer_info_emits c s :
  Q (Call (QueryCustomerInfo c s)) -> only_emits Q (query_customer_info c s).
Proof. intros. unfold query_customer_info. emits. Qed.

Lemma solve_technical_issue_emits t c :
  Q (Call (SolveTechnicalIssue t c)) -> only_emits Q (solve_technical_issue t c).
Proof. intros. unfold solve_technical_issue. emits. Qed.

Lemma compose_reply_emits a c s t :
  Q (Call (ComposeReply a c s t)) -> only_emits Q (compose_reply a c s t).
Proof. intros. unfold compose_reply. emits. Qed.

Lemma extract_customer_id_emits t :
  Q (Call (ExtractCustomerId t)) -> only_emits Q (extract_customer_id t).
Proof. intros. unfold extract_customer_id. emits. Qed.

End AgentEffects.

#[export] Hint Resolve chat_completions_create_emits psycopg2_connect_emits
  cursor_execute_emits conn_commit_emits conn_rollback_emits conn_close_emits
  print_emits json_loads_emits require_str_emits call_openai_emits
  _get_connection_emits _save_ticket_to_db_emits date_to_string_emits
  analyze_ticket_emits update_ticket_recommendation_emits
  query_customer_info_emits solve_technical_issue_emits compose_reply_emits
  extract_customer_id_emits : emits.

(** ** Strings *)

Lemma lstrip_snoc l c :
  py_isspace c = false -> exists l', lstrip (l ++ [c]) = l' ++ [c].
Proof.
  intros Hc. induction l as [| a l IH]; simpl.
  - rewrite Hc. by exists [].
  - destruct (py_isspace a); [done |]. by exists (a :: l).
Qed.

(** Stripping keeps a first character that is not white space. *)
Lemma strip_head c s :
  py_isspace c = false -> exists s', strip (c :: s) = c :: s'.
Proof.
  intros Hc. unfold strip, rstrip. simpl. rewrite Hc. simpl.
  destruct (lstrip_snoc (rev s) c Hc) as [l' ->].
  rewrite rev_app_distr. simpl. eauto.
Qed.

Lemma store_calls_app t1 t2 :
  store_calls (t1 ++ t2) = store_calls t1 ++ store_calls t2.
Proof. apply omap_app. Qed.

(** Unfolding of the driver and of the control operators. *)
Ltac run :=
  cbv [_save_ticket_to_db update_ticket_recommendation _get_connection
       psycopg2_connect cursor_execute conn_commit conn_rollback conn_close
       run_statement try_except try_finally bind ret raise lift emit print
       add_event set_faults set_pending set_next_ticket_id set_tickets
       session_fault trace faults pending tickets next_ticket_id llm customer_support
       opt_dict apply_write].

(** ** The classifier *)

Section Classifier.

Context `{PyRuntime}.

(** The error string of [call_openai] is no JSON text. *)
Lemma error_string_not_json e :
  json_parse (unfence (u "An error occurred: " ++ e)) = None.
Proof.
  unfold unfence.
  change (u "An error occurred: " ++ e) with (65%N :: (u "n error occurred: " ++ e)).
  destruct (strip_head 65%N (u "n error occurred: " ++ e) eq_refl) as [s' ->].
  reflexivity.
Qed.

Lemma classify_fallback w t :
  classification_fails w t ->
  try_except
    (response <- call_openai analyze_ticket_system_prompt (analyze_ticket_user_prompt t) ;;
     response <- require_str response "strip" ;;
     let response := unfence response in
     json_loads response)
    (fun _ => ret (PyDict fallback_analysis)) w
  = (Returns (PyDict fallback_analysis),
     add_event (LlmRequest analyze_ticket_system_prompt (analyze_ticket_user_prompt t)) w).
Proof.
  unfold classification_fails.
  cbv [try_except bind call_openai chat_completions_create ret].
  destruct (llm w _ _) as [e | [answer |]]; intros Hf.
  - cbv [require_str ret json_loads exn_str raise]. by rewrite error_string_not_json.
  - cbv [require_str ret json_loads raise]. by rewrite Hf.
  - reflexivity.
Qed.

(** [_save_ticket_to_db] on an analysis that has the six fields. *)
Lemma save_ticket_spec a c t w ty ur rc rt se er :
  py_getitem a (u "ticket_type") = Returns ty ->
  py_getitem a (u "urgency") = Returns ur ->
  py_getitem a (u "requires_customer_data") = Returns rc ->
  py_getitem a (u "requires_technical_help") = Returns rt ->
  py_getitem a (u "customer_sentiment") = Returns se ->
  py_getitem a (u "estimated_resolution_time") = Returns er ->
  exists w',
    _save_ticket_to_db a c t w = (Returns (saved_ticket_id w), w')
    /\ store_calls (trace w') =
         store_calls (trace w)
         ++ write_attempt (next_fault w) (InsertTicket c ty ur rc rt se er t).
Proof.
  intros H1 H2 H3 H4 H5 H6.
  unfold saved_ticket_id, next_fault.
  destruct w as [l cs tk n fs p tr].
  destruct fs as [| [[e | e | e] |] fs]; run; rewrite ?H1, ?H2, ?H3, ?H4, ?H5, ?H6; run.
  all: eexists; split; [reflexivity |].
  all: cbv [trace]; rewrite ?store_calls_app, <- ?app_assoc; reflexivity.
Qed.

(** The classifier on a failing service: the fallback analysis with the
    ticket id, and the attempt to insert it. *)
Lemma analyze_ticket_fallback_spec w ticket_content customer_id :
  classification_fails w ticket_content ->
  exists w',
    analyze_ticket ticket_content customer_id w
    = (Returns (<[u "ticket_id" := saved_ticket_id w]> fallback_analysis), w')
    /\ store_calls (trace w') =
         store_calls (trace w)
         ++ write_attempt (next_fault w) (fallback_insert customer_id ticket_content).
Proof.
  intros Hf.
  unfold analyze_ticket.
  erewrite bind_returns by reflexivity. cbv zeta.
  erewrite bind_returns by (apply classify_fallback; exact Hf).
  edestruct (save_ticket_spec (PyDict fallback_analysis) customer_id ticket_content)
    as (w' & Hw' & Hs); try reflexivity.
  erewrite bind_returns by exact Hw'.
  exists w'. cbv [lift py_setitem]. split; [reflexivity |].
  rewrite Hs. cbv [add_event trace]. rewrite !store_calls_app. simpl.
  rewrite !app_nil_r. reflexivity.
Qed.


End Classifier.

(** ** The customer lookup *)

Section Lookup.

Context `{PyRuntime}.

(** The lookup never raises, and answers as [lookup_answer] says. *)
Lemma query_customer_info_spec customer_id query_type w :
  exists w',
    query_customer_info customer_id query_type w
    = (Returns (lookup_answer w customer_id query_type), w').
Proof.
  destruct customer_id as [id |]; [| eexists; reflexivity].
  unfold query_customer_info, lookup_answer, well_formed_id, customer_record, next_fault.
  do 2 (erewrite bind_returns by reflexivity).
  destruct (py_truthy (PyStr id)); [| eexists; reflexivity].
  destruct (startswith id (u "CUST")); [| eexists; reflexivity].
  cbn [negb orb andb].
  destruct w as [l cs tk n fs p tr].
  destruct fs as [| [[e | e | e] |] fs];
    try (eexists; reflexivity);
    repeat case_bool_decide; run;
    destruct (cs !! id) as [[? ? ? [?|] [?|] [?|]] |];
    eexists; reflexivity.
Qed.


Lemma startswith_app s t : startswith (s ++ t) s = true.
Proof.
  induction s as [| c s IH]; [by destruct t |].
  simpl. rewrite N.eqb_refl. exact IH.
Qed.

Lemma py_in_unfold needle hay :
  py_in needle hay
  = startswith hay needle
    || match hay with [] => false | _ :: hay' => py_in needle hay' end.
Proof. by destruct hay. Qed.

(** A text contains each of its parts. *)
Lemma py_in_mid p s t : py_in s (p ++ s ++ t) = true.
Proof.
  induction p as [| c p IH]; rewrite py_in_unfold.
  - simpl. by rewrite startswith_app.
  - simpl. rewrite IH. apply orb_true_r.
Qed.

Lemma py_in_app p s : py_in s (p ++ s) = true.
Proof. rewrite <- (app_nil_r s) at 2. apply py_in_mid. Qed.

(** A lookup that answers without an [error] key found a row, and answers
    with the record of its scope. *)
Lemma successful_lookup w id query_type d w' :
  query_customer_info (Some id) query_type w = (Returns d, w') ->
  d !! u "error" = None ->
  exists r, customer_support w !! id = Some r /\ d = customer_record query_type id r.
Proof.
  intros Hq Hd.
  destruct (query_customer_info_spec (Some id) query_type w) as [w'' E].
  assert (Hans : d = lookup_answer w (Some id) query_type) by congruence.
  subst d. clear E Hq.
  assert (Herr : forall x : pyval,
             ({[ u "error" := x ]} : gmap (list N) pyval) !! u "error" = None -> False).
  { intros x Hx. by rewrite lookup_singleton_eq in Hx. }
  unfold lookup_answer in Hd |- *.
  destruct (well_formed_id (Some id)); [| by destruct (Herr _ Hd)].
  destruct (next_fault w) as [[e | e | e] |];
    try (by destruct (Herr _ Hd));
    (destruct (customer_support w !! id) as [r |];
     [by exists r | by destruct (Herr _ Hd)]).
Qed.

Lemma strftime_is_Ymd d : is_Ymd (strftime_Ymd d) = true.
Proof.
  unfold is_Ymd, strftime_Ymd, forallb, is_digit, digit.
  repeat match goal with
  | |- context [(?a mod 10)%N] =>
      let H := fresh in
      assert (H : (a mod 10 < 10)%N) by (apply N.mod_lt; lia);
      generalize dependent (a mod 10)%N; intros
  end.
  rewrite !andb_true_iff, !N.leb_le, !N.eqb_eq. repeat split; lia.
Qed.

(** C4 (amended). [query_customer_info] never raises, and its failures are
    values with an [error] key: an identifier that is empty, missing or not
    starting with CUST gives the error that names the expected format; a
    failed connection gives the fixed error "Database connection failed"
    (the cause is printed, not returned); a failed query gives an error that
    contains the underlying message; no matching row gives an error that
    names the identifier. *)
Theorem query_customer_info_errors_are_values w customer_id query_type :
  exists d w',
    query_customer_info customer_id query_type w = (Returns d, w')
    /\ (well_formed_id customer_id = false ->
        d = invalid_format_error customer_id)
    /\ (forall id, customer_id = Some id -> well_formed_id customer_id = true ->
        (forall e, next_fault w = Some (ConnectFails e) -> d = connection_error)
        /\ (forall e, next_fault w = Some (ExecuteFails e) ->
            d = query_error e
            /\ py_in e (u "Database query failed: " ++ e) = true)
        /\ ((forall e, next_fault w <> Some (ConnectFails e)) ->
            (forall e, next_fault w <> Some (ExecuteFails e)) ->
            customer_support w !! id = None ->
            d = not_found_error id
            /\ py_in id (u "Customer " ++ id ++ u " not found in database") = true)).
Proof.
  destruct (query_customer_info_spec customer_id query_type w) as [w' E].
  exists (lookup_answer w customer_id query_type), w'.
  split; [exact E |]. unfold lookup_answer. split.
  - intros Hwf. rewrite Hwf. by destruct customer_id.
  - intros id -> Hwf. rewrite Hwf. split; [| split].
    + by intros e ->.
    + intros e ->. split; [done | apply py_in_app].
    + intros Hc He Hrow. split; [| apply py_in_mid].
      rewrite Hrow.
      destruct (next_fault w) as [[x | x | x] |]; try done.
      * by destruct (Hc x).
      * by destruct (He x).
Qed.


(** The string of a date in the range of [datetime.date] reads back as
    that date. *)
Lemma strftime_parse d : valid_date d -> parse_Ymd (strftime_Ymd d) = Some d.
Proof.
  intros (Hy & Hm & Hd). unfold parse_Ymd.
  rewrite strftime_is_Ymd. unfold strftime_Ymd, digit_val, digit.
  destruct d as [y m a]; simpl in *. f_equal.
  f_equal; zify; Z.to_euclidean_division_equations; lia.
Qed.


(** C10. A billing-scope lookup that finds a row answers with the status
    [Active], whatever the store holds for that customer: the record is
    name, plan and last payment of the row, and the constant. *)
Theorem billing_status_is_constant w id d w' :
  query_customer_info (Some id) (u "billing") w = (Returns d, w') ->
  d !! u "error" = None ->
  d !! u "status" = Some (PyStr (u "Active"))
  /\ exists r, customer_support w !! id = Some r /\ d = billing_record r.
Proof.
  intros Hq Hd.
  destruct (successful_lookup _ _ _ _ _ Hq Hd) as (r & Hr & ->).
  split; [reflexivity |]. by exists r.
Qed.

End Lookup.

(** ** The identifier extractor *)

Section Extractor.

Context `{PyRuntime}.

Lemma lstrip_suffix s : exists pre, s = pre ++ lstrip s.
Proof.
  induction s as [| c s [pre IH]]; [by exists [] |]. simpl.
  destruct (py_isspace c); [| by exists []].
  exists (c :: pre). simpl. by rewrite <- IH.
Qed.

(** The stripped text is a part of the text. *)
Lemma strip_part s : exists pre post, s = pre ++ strip s ++ post.
Proof.
  unfold strip, rstrip.
  destruct (lstrip_suffix s) as [pre Hpre].
  destruct (lstrip_suffix (rev (lstrip s))) as [post Hpost].
  exists pre, (rev post).
  rewrite <- rev_app_distr, <- Hpost, rev_involutive. exact Hpre.
Qed.

Lemma extract_customer_id_spec t w :
  extract_customer_id t w
  = (Returns (validated (llm w extract_customer_id_system_prompt
                           (extract_customer_id_user_prompt t))),
     add_event (LlmRequest extract_customer_id_system_prompt
                  (extract_customer_id_user_prompt t))
       (add_event (Call (ExtractCustomerId t)) w)).
Proof.
  unfold extract_customer_id.
  erewrite bind_returns by reflexivity.
  cbv [try_except bind call_openai chat_completions_create ret].
  change (llm (add_event (Call (ExtractCustomerId t)) w)) with (llm w).
  destruct (llm w _ _) as [e | [answer |]]; cbv [require_str ret raise validated exn_str].
  - change (u "An error occurred: " ++ e) with (65%N :: (u "n error occurred: " ++ e)).
    destruct (strip_head 65%N (u "n error occurred: " ++ e) eq_refl) as [s' ->].
    reflexivity.
  - by destruct (_ || _).
  - reflexivity.
Qed.

(** C6 (amended). [extract_customer_id] never raises. It answers null when
    the call of the completion service fails or has no content, and when
    the answer, stripped of surrounding white space, is NONE or does not
    start with CUST; any identifier it returns is the stripped answer, a
    part of what the service produced. *)
Theorem extract_customer_id_validates_answer w ticket_content :
  exists result w',
    extract_customer_id ticket_content w = (Returns result, w')
    /\ match llm w extract_customer_id_system_prompt
               (extract_customer_id_user_prompt ticket_content) with
       | LlmRaises _ => result = None
       | LlmReturns None => result = None
       | LlmReturns (Some answer) =>
           (strip answer = u "NONE" \/ startswith (strip answer) (u "CUST") = false ->
            result = None)
           /\ (forall id, result = Some id ->
               id = strip answer
               /\ startswith id (u "CUST") = true
               /\ exists before after, answer = before ++ id ++ after)
       end.
Proof.
  eexists _, _. split; [apply extract_customer_id_spec |].
  destruct (llm w _ _) as [e | [answer |]]; try reflexivity.
  unfold validated. split.
  - intros [-> | ->]; [done |]. by rewrite orb_true_r.
  - intros id Hid.
    destruct (bool_decide _); [discriminate Hid |].
    destruct (startswith (strip answer) (u "CUST")) eqn:Hs; [| discriminate Hid].
    injection Hid as <-. repeat split; [exact Hs | apply strip_part].
Qed.

(** C8 (amended). For a ticket text that holds a labelled CUST token, the
    extractor returns exactly that token if and only if the completion
    service answers with it, surrounding white space aside: the text itself
    is not searched. *)
Theorem extract_customer_id_returns_the_service_token w ticket_content token answer :
  labelled_with ticket_content token ->
  cust_token token = true ->
  llm w extract_customer_id_system_prompt (extract_customer_id_user_prompt ticket_content)
  = LlmReturns (Some answer) ->
  (extract_customer_id ticket_content w).1 = Returns (Some token)
  <-> strip answer = token.
Proof.
  intros _ Htok Ha.
  rewrite extract_customer_id_spec, Ha. unfold validated. simpl.
  unfold cust_token in Htok. apply andb_true_iff in Htok as [Htok _].
  apply andb_true_iff in Htok as [Htok _].
  split.
  - destruct (_ || _); [discriminate |]. congruence.
  - intros ->. rewrite Htok.
    case_bool_decide as Hn; [by subst token |]. reflexivity.
Qed.

End Extractor.

(** ** Attaching the reply *)

Section Update.

Context `{PyRuntime}.

Lemma printed_app t1 t2 : printed (t1 ++ t2) = printed t1 ++ printed t2.
Proof. apply omap_app. Qed.

Lemma update_ticket_recommendation_spec ticket_id answer w :
  py_truthy ticket_id = true ->
  exists w',
    update_ticket_recommendation ticket_id answer w = (Returns tt, w')
    /\ store_calls (trace w') =
         store_calls (trace w)
         ++ write_attempt (next_fault w) (UpdateRecommendedAnswer answer ticket_id)
    /\ printed (trace w') = printed (trace w) ++ update_log (next_fault w) ticket_id
    /\ tickets w' =
         match next_fault w with
         | None => apply_write (WUpdate ticket_id answer) (tickets w)
         | Some _ => tickets w
         end.
Proof.
  intros Hid. unfold update_ticket_recommendation.
  erewrite bind_returns by reflexivity. rewrite Hid. cbn [negb].
  unfold next_fault.
  destruct w as [l cs tk n fs p tr].
  destruct fs as [| [[e | e | e] |] fs]; run.
  all: eexists; split; [reflexivity |].
  all: cbv [trace tickets]; rewrite ?store_calls_app, ?printed_app, <- ?app_assoc.
  all: repeat split; reflexivity.
Qed.

End Update.

(** ** The routing procedure *)

Section Routing.

Context `{PyRuntime}.

(** One step of a run that returns: the first computation of a [bind]
    returned. *)
Ltac step_in H a w E :=
  unfold bind at 1 in H;
  match type of H with
  | (match ?m with (_, _) => _ end) = _ =>
      destruct m as [[a | ?] w] eqn:E; [| discriminate H]
  end.

(** The stages of a run that returns. *)
Lemma process_support_ticket_returns t c w res w' :
  process_support_ticket t c w = (Returns res, w') ->
  exists known w1 w2 w3 w4 w5 ty ur rc rt se er,
    (if negb (py_truthy (opt_str c)) then extract_customer_id t else ret c) w
    = (Returns known, w1)
    /\ analyze_ticket t known w1 = (Returns (analysis res), w2)
    /\ analysis res !! u "ticket_type" = Some ty
    /\ analysis res !! u "urgency" = Some ur
    /\ analysis res !! u "requires_customer_data" = Some rc
    /\ analysis res !! u "requires_technical_help" = Some rt
    /\ analysis res !! u "customer_sentiment" = Some se
    /\ analysis res !! u "estimated_resolution_time" = Some er
    /\ (if py_truthy rc && py_truthy (opt_str known) then
          let query_type :=
            if py_eq_str ty (u "billing") then u "billing"
            else if py_eq_str ty (u "account") then u "history"
            else u "full" in
          exists info,
            query_customer_info known query_type w2 = (Returns info, w3)
            /\ customer_info res = Some info
        else customer_info res = None /\ w3 = w2)
    /\ (if py_truthy rt
        then solve_technical_issue t (customer_info res) w3
             = (Returns (technical_solution res), w4)
        else technical_solution res = None /\ w4 = w3)
    /\ compose_reply (analysis res) (customer_info res) (technical_solution res) t w4
       = (Returns (final_reply res), w5)
    /\ (if py_truthy (py_get (analysis res) (u "ticket_id") PyNone)
        then update_ticket_recommendation
               (py_get (analysis res) (u "ticket_id") PyNone) (final_reply res) w5
             = (Returns tt, w')
        else w' = w5)
    /\ agents_used res =
         [u "TicketAnalyzer"]
         ++ (if py_truthy (opt_dict (customer_info res)) then [u "DatabaseAgent"] else [])
         ++ (if py_truthy (opt_str (technical_solution res)) then [u "TechSolver"] else [])
         ++ [u "ReplyAgent"].
Proof.
  unfold process_support_ticket. intros Hrun.
  step_in Hrun known w1 E1.
  step_in Hrun a w2 E2.
  unfold bind at 1 in Hrun. unfold lift at 1 in Hrun. cbn [py_getitem] in Hrun.
  destruct (a !! u "ticket_type") as [ty |] eqn:Kty; [| discriminate].
  unfold bind at 1 in Hrun. unfold lift at 1 in Hrun.
  destruct (a !! u "urgency") as [ur |] eqn:Kur; [| discriminate].
  unfold bind at 1 in Hrun. unfold lift at 1 in Hrun.
  destruct (a !! u "requires_customer_data") as [rc |] eqn:Krc; [| discriminate].
  unfold bind at 1 in Hrun. unfold lift at 1 in Hrun.
  destruct (a !! u "requires_technical_help") as [rt |] eqn:Krt; [| discriminate].
  unfold bind at 1 in Hrun. unfold lift at 1 in Hrun.
  destruct (a !! u "customer_sentiment") as [se |] eqn:Kse; [| discriminate].
  step_in Hrun ci w3 E3.
  step_in Hrun ts w4 E4.
  step_in Hrun fr w5 E5.
  step_in Hrun un w6 E6. destruct un.
  cbv zeta in Hrun.
  unfold bind at 1 in Hrun. unfold lift at 1 in Hrun.
  destruct (a !! u "estimated_resolution_time") as [er |] eqn:Ker; [| discriminate].
  unfold ret in Hrun. injection Hrun as <- <-.
  exists known, w1, w2, w3, w4, w5, ty, ur, rc, rt, se, er. cbn [analysis customer_info
    technical_solution final_reply agents_used].
  repeat split; try assumption.
  - destruct (py_truthy rc && py_truthy (opt_str known)).
    + cbv zeta in E3 |- *. unfold bind in E3.
      destruct (query_customer_info _ _ w2) as [[info | e] w3'] eqn:Eq; [| discriminate].
      unfold ret in E3. injection E3 as <- <-. by exists info.
    + destruct (py_truthy rc); unfold ret in E3; by injection E3 as <- <-.
  - destruct (py_truthy rt); [assumption |].
    unfold ret in E4. by injection E4 as <- <-.
  - destruct (py_truthy (py_get a _ _)); [assumption |].
    unfold ret in E6. by injection E6 as <-.
Qed.


Lemma call_of_admits : admits_effects (fun e => call_of e = None).
Proof. by intros []. Qed.

#[local] Hint Resolve call_of_admits : emits.

Lemma calls_app t1 t2 : calls (t1 ++ t2) = calls t1 ++ calls t2.
Proof. apply omap_app. Qed.

(** A stage that enters no agent leaves the calls as they were. *)
Lemma silent_stage {A} (m : M A) w r w1 :
  only_emits (fun e => call_of e = None) m ->
  m w = (r, w1) ->
  calls (trace w1) = calls (trace w).
Proof.
  intros Hm Hw. unfold calls.
  rewrite <- (only_emits_omap call_of m w Hm). by rewrite Hw.
Qed.

(** A method that records its entry and then enters no other agent adds
    exactly one call. *)
Lemma entered {A} (c : call) (body : M A) w r w1 :
  only_emits (fun e => call_of e = None) body ->
  (emit (Call c) ;; body) w = (r, w1) ->
  calls (trace w1) = calls (trace w) ++ [c].
Proof.
  intros Hb. erewrite bind_returns by reflexivity. intros Hw.
  rewrite (silent_stage _ _ _ _ Hb Hw). cbv [add_event trace]. by rewrite calls_app.
Qed.

Lemma extract_customer_id_calls t w r w1 :
  extract_customer_id t w = (r, w1) ->
  calls (trace w1) = calls (trace w) ++ [ExtractCustomerId t].
Proof. apply entered. emits. Qed.

Lemma analyze_ticket_calls t c w r w1 :
  analyze_ticket t c w = (r, w1) ->
  calls (trace w1) = calls (trace w) ++ [AnalyzeTicket t c].
Proof. apply entered. emits. Qed.

Lemma query_customer_info_calls c s w r w1 :
  query_customer_info c s w = (r, w1) ->
  calls (trace w1) = calls (trace w) ++ [QueryCustomerInfo c s].
Proof. apply entered. emits. Qed.

Lemma solve_technical_issue_calls t c w r w1 :
  solve_technical_issue t c w = (r, w1) ->
  calls (trace w1) = calls (trace w) ++ [SolveTechnicalIssue t c].
Proof. apply entered. emits. Qed.

Lemma compose_reply_calls a c s t w r w1 :
  compose_reply a c s t w = (r, w1) ->
  calls (trace w1) = calls (trace w) ++ [ComposeReply a c s t].
Proof. apply entered. emits. Qed.

Lemma update_ticket_recommendation_calls i a w r w1 :
  update_ticket_recommendation i a w = (r, w1) ->
  calls (trace w1) = calls (trace w) ++ [UpdateTicketRecommendation i a].
Proof. apply entered. emits. Qed.

(** The identifier with which a run goes on is the caller's when that is
    not empty, and else what the extractor found; it is never empty. *)
Lemma known_identifier t c w known w1 :
  (if negb (py_truthy (opt_str c)) then extract_customer_id t else ret c) w
  = (Returns known, w1) ->
  (py_truthy (opt_str c) = true -> known = c)
  /\ (py_truthy (opt_str known) = true <-> is_Some known).
Proof.
  destruct (py_truthy (opt_str c)) eqn:Hc; cbn [negb].
  - unfold ret. intros [= <- <-]. split; [done |].
    split; [destruct c; [by eexists | done] | done].
  - rewrite extract_customer_id_spec. intros [= <- _]. split; [done |].
    split; [by destruct (validated _); [eexists |] |].
    intros [id Hid]. rewrite Hid.
    unfold validated in Hid. destruct (llm w _ _) as [| [answer |]]; try discriminate.
    destruct (bool_decide _); [discriminate |].
    destruct (startswith (strip answer) (u "CUST")) eqn:Hs; [| discriminate].
    injection Hid as <-. by destruct (strip answer).
Qed.


Lemma py_get_some (d : gmap (list N) pyval) k v x :
  d !! k = Some v -> py_get d k x = v.
Proof. intros Hk. unfold py_get. by rewrite Hk. Qed.

(** The calls of a run that returns, in order: the extractor unless the
    caller gave an identifier, the classifier, the lookup when customer data
    is required and an identifier is known, the solver when technical help
    is required, the composer, and the update when the ticket has an id. *)
Lemma returning_run_calls t c w res w' :
  process_support_ticket t c w = (Returns res, w') ->
  exists known,
    (py_truthy (opt_str c) = true -> known = c)
    /\ (py_truthy (opt_str known) = true <-> is_Some known)
    /\ calls (trace w') = calls (trace w) ++ run_calls t c known res
    /\ (is_Some (customer_info res) <->
        py_truthy (py_get (analysis res) (u "requires_customer_data") PyNone)
        && py_truthy (opt_str known) = true).
Proof.
  intros Hrun.
  destruct (process_support_ticket_returns _ _ _ _ _ Hrun)
    as (known & w1 & w2 & w3 & w4 & w5 & ty & ur & rc & rt & se & er
        & S1 & S2 & Kty & Kur & Krc & Krt & Kse & Ker & S3 & S4 & S5 & S6 & _).
  destruct (known_identifier _ _ _ _ _ S1) as [Hc Hk].
  exists known. split; [exact Hc |]. split; [exact Hk |].
  unfold run_calls, scope_for.
  rewrite (py_get_some _ _ _ _ Kty), (py_get_some _ _ _ _ Krc), (py_get_some _ _ _ _ Krt).
  cbv zeta.
  assert (C1 : calls (trace w1) = calls (trace w)
               ++ (if py_truthy (opt_str c) then [] else [ExtractCustomerId t])).
  { destruct (py_truthy (opt_str c)); cbn [negb] in S1.
    - unfold ret in S1. injection S1 as _ <-. by rewrite app_nil_r.
    - by apply extract_customer_id_calls in S1. }
  apply analyze_ticket_calls in S2 as C2.
  assert (C3 : calls (trace w3) = calls (trace w2)
               ++ (if py_truthy rc && py_truthy (opt_str known)
                   then [QueryCustomerInfo known
                           (if py_eq_str ty (u "billing") then u "billing"
                            else if py_eq_str ty (u "account") then u "history"
                            else u "full")]
                   else [])
               /\ (is_Some (customer_info res) <->
                   py_truthy rc && py_truthy (opt_str known) = true)).
  { destruct (py_truthy rc && py_truthy (opt_str known)).
    - cbv zeta in S3. destruct S3 as (info & Sq & ->).
      apply query_customer_info_calls in Sq. split; [exact Sq |].
      split; [done | by eexists].
    - destruct S3 as [-> ->]. rewrite app_nil_r. split; [done |].
      split; [by intros [] | done]. }
  destruct C3 as [C3 Hinfo].
  assert (C4 : calls (trace w4) = calls (trace w3)
               ++ (if py_truthy rt then [SolveTechnicalIssue t (customer_info res)]
                   else [])).
  { destruct (py_truthy rt).
    - by apply solve_technical_issue_calls in S4.
    - destruct S4 as [_ ->]. by rewrite app_nil_r. }
  apply compose_reply_calls in S5 as C5.
  set (tid := py_get (analysis res) (u "ticket_id") PyNone) in *.
  assert (C6 : calls (trace w') = calls (trace w5)
               ++ (if py_truthy tid
                   then [UpdateTicketRecommendation tid (final_reply res)]
                   else [])).
  { destruct (py_truthy tid).
    - by apply update_ticket_recommendation_calls in S6.
    - subst w'. by rewrite app_nil_r. }
  split; [| exact Hinfo].
  rewrite C6, C5, C4, C3, C2, C1. by rewrite <- !app_assoc.
Qed.


Lemma lookups_of_run t c known res :
  omap lookup_of (run_calls t c known res)
  = if py_truthy (py_get (analysis res) (u "requires_customer_data") PyNone)
       && py_truthy (opt_str known)
    then [(known, scope_for (py_get (analysis res) (u "ticket_type") PyNone))]
    else [].
Proof.
  unfold run_calls. cbv zeta.
  repeat match goal with |- context [if ?b then _ else _] => destruct b end;
    reflexivity.
Qed.

Lemma classifications_of_run t c known res :
  omap classification_of (run_calls t c known res) = [(t, known)].
Proof.
  unfold run_calls. cbv zeta.
  repeat match goal with |- context [if ?b then _ else _] => destruct b end;
    reflexivity.
Qed.

Lemma updates_of_run t c known res :
  omap update_of (run_calls t c known res)
  = if py_truthy (py_get (analysis res) (u "ticket_id") PyNone)
    then [(py_get (analysis res) (u "ticket_id") PyNone, final_reply res)]
    else [].
Proof.
  unfold run_calls. cbv zeta.
  repeat match goal with |- context [if ?b then _ else _] => destruct b end;
    reflexivity.
Qed.



(** A dict that holds a key is not empty. *)
Lemma py_truthy_dict (d : gmap (list N) pyval) k v :
  d !! k = Some v -> py_truthy (PyDict d) = true.
Proof.
  intros Hk. simpl. case_bool_decide as Hd; [| done].
  assert (Hin : k ∈ dom d) by (apply elem_of_dom; by eexists).
  rewrite Hd in Hin. by apply not_elem_of_empty in Hin.
Qed.

(** The lookup never answers with an empty dict: an error object and a
    customer record alike count as customer_info. *)
Lemma lookup_answer_truthy w c s : py_truthy (PyDict (lookup_answer w c s)) = true.
Proof.
  assert (Herr : forall x : pyval,
             py_truthy (PyDict {[ u "error" := x ]}) = true).
  { intros x. by eapply py_truthy_dict, lookup_singleton_eq. }
  unfold lookup_answer.
  destruct c as [id |]; [| apply Herr].
  destruct (well_formed_id (Some id)); [| apply Herr].
  assert (Hrec : forall r, py_truthy (PyDict (customer_record s id r)) = true).
  { intros r. apply (py_truthy_dict _ (u "name") (opt_str (name r))).
    unfold customer_record. by repeat case_bool_decide. }
  destruct (next_fault w) as [[e | e | e] |]; try apply Herr;
    destruct (customer_support w !! id); by (apply Hrec || apply Herr).
Qed.

(** The list that the summary builds, for both flags. *)
Lemma agents_shape (db ts : bool) :
  let l := [u "TicketAnalyzer"]
           ++ (if db then [u "DatabaseAgent"] else [])
           ++ (if ts then [u "TechSolver"] else [])
           ++ [u "ReplyAgent"] in
  NoDup l
  /\ sublist l [u "TicketAnalyzer"; u "DatabaseAgent"; u "TechSolver"; u "ReplyAgent"]
  /\ head l = Some (u "TicketAnalyzer")
  /\ list.last l = Some (u "ReplyAgent")
  /\ (u "DatabaseAgent" ∈ l <-> db = true)
  /\ (u "TechSolver" ∈ l <-> ts = true).
Proof.
  destruct db, ts; cbv zeta; cbn [app].
  all: split; [compute_done |].
  all: split; [repeat first [apply sublist_skip | apply sublist_cons | apply sublist_nil] |].
  all: split; [reflexivity |]. all: split; [reflexivity |].
  all: split; (split; [intros Hin | intros Ht]); try done; try compute_done.
  all: exfalso; revert Hin; compute_done.
Qed.

(** C3 (amended). In a run of the routing procedure that returns,
    agents_used is a duplicate-free selection, in order, of TicketAnalyzer,
    DatabaseAgent, TechSolver, ReplyAgent; it begins with TicketAnalyzer and
    ends with ReplyAgent; DatabaseAgent is in it exactly when customer_info
    is not null (an error object of the lookup counts), and TechSolver
    exactly when technical_solution is neither null nor the empty string. *)
Theorem agents_used_lists_the_agents ticket_content customer_id w res w' :
  process_support_ticket ticket_content customer_id w = (Returns res, w') ->
  NoDup (agents_used res)
  /\ sublist (agents_used res)
       [u "TicketAnalyzer"; u "DatabaseAgent"; u "TechSolver"; u "ReplyAgent"]
  /\ head (agents_used res) = Some (u "TicketAnalyzer")
  /\ list.last (agents_used res) = Some (u "ReplyAgent")
  /\ (u "DatabaseAgent" ∈ agents_used res <-> is_Some (customer_info res))
  /\ (forall info, customer_info res = Some info -> is_Some (info !! u "error") ->
      u "DatabaseAgent" ∈ agents_used res)
  /\ (u "TechSolver" ∈ agents_used res <->
      exists s, technical_solution res = Some s /\ s <> []).
Proof.
  intros Hrun.
  destruct (process_support_ticket_returns _ _ _ _ _ Hrun)
    as (known & w1 & w2 & w3 & w4 & w5 & ty & ur & rc & rt & se & er
        & _ & _ & _ & _ & _ & _ & _ & _ & S3 & _ & _ & _ & ->).
  assert (Hinfo : py_truthy (opt_dict (customer_info res)) = true
                  <-> is_Some (customer_info res)).
  { destruct (py_truthy rc && py_truthy (opt_str known)).
    - cbv zeta in S3. destruct S3 as (info & Sq & ->).
      destruct (query_customer_info_spec known
                  (if py_eq_str ty (u "billing") then u "billing"
                   else if py_eq_str ty (u "account") then u "history"
                   else u "full") w2) as [w3' E].
      assert (Hans : info = lookup_answer w2 known
                (if py_eq_str ty (u "billing") then u "billing"
                 else if py_eq_str ty (u "account") then u "history"
                 else u "full")) by congruence.
      cbn [opt_dict]. rewrite Hans, lookup_answer_truthy. split; [by eexists | done].
    - destruct S3 as [-> _]. split; [done | by intros []]. }
  assert (Hsol : py_truthy (opt_str (technical_solution res)) = true
                 <-> exists s, technical_solution res = Some s /\ s <> []).
  { destruct (technical_solution res) as [[| x s] |]; simpl; split;
      try done; try (by intros (? & [= <-] & ?)); try (by intros (? & [=] & ?)).
    intros _. by eexists. }
  destruct (agents_shape (py_truthy (opt_dict (customer_info res)))
              (py_truthy (opt_str (technical_solution res))))
    as (Hnd & Hsub & Hhd & Hlast & Hdb & Hts).
  rewrite Hinfo in Hdb. rewrite Hsol in Hts.
  repeat split; try assumption; try apply Hdb; try apply Hts.
  intros info Hi _. apply Hdb. by eexists.
Qed.


(** A session that a fault awaits saves no ticket. *)
Lemma save_ticket_fails a c t w :
  is_Some (next_fault w) ->
  exists w', _save_ticket_to_db a c t w = (Returns PyNone, w').
Proof.
  unfold next_fault. destruct w as [l cs tk n fs p tr]. cbn [faults].
  destruct fs as [| [[e | e | e] |] fs]; intros [f Hf]; try discriminate; run.
  - eexists; reflexivity.
  - repeat match goal with
    | |- context [py_getitem ?x ?k] => destruct (py_getitem x k)
    end; eexists; reflexivity.
  - repeat match goal with
    | |- context [py_getitem ?x ?k] => destruct (py_getitem x k)
    end; eexists; reflexivity.
Qed.

(** The classifier's call of the completion service leaves the store's
    sessions as they were. *)
Lemma classify_stage_faults t w r w1 :
  try_except
    (response <- call_openai analyze_ticket_system_prompt (analyze_ticket_user_prompt t) ;;
     response <- require_str response "strip" ;;
     let response := unfence response in
     json_loads response)
    (fun _ => ret (PyDict fallback_analysis)) w = (r, w1) ->
  next_fault w1 = next_fault w.
Proof.
  cbv [try_except bind call_openai chat_completions_create require_str json_loads
       ret raise].
  destruct (llm w _ _) as [e | [answer |]];
    repeat match goal with
    | |- context [json_parse ?x] => destruct (json_parse x)
    end; by intros [= _ <-].
Qed.

(** When the session of the insert fails, the analysis carries no ticket
    id. *)
Lemma analyze_ticket_without_id t c w a w' :
  analyze_ticket t c w = (Returns a, w') ->
  is_Some (next_fault w) ->
  a !! u "ticket_id" = Some PyNone.
Proof.
  unfold analyze_ticket. erewrite bind_returns by reflexivity. cbv zeta.
  intros Hrun Hf.
  step_in Hrun an w1 E1.
  apply classify_stage_faults in E1.
  assert (Hf1 : is_Some (next_fault w1)) by by rewrite E1.
  destruct (save_ticket_fails an c t w1 Hf1) as [w2 E2].
  erewrite bind_returns in Hrun by exact E2.
  unfold lift, py_setitem in Hrun.
  destruct an; try discriminate. injection Hrun as <- _.
  apply lookup_insert_eq.
Qed.



Lemma no_empty_lookup_admits : admits_effects no_empty_lookup.
Proof. by intros [] ? ?. Qed.

(** A truthy identifier is not the empty string. *)
Lemma truthy_lookup_allowed rc (known : option (list N)) s :
  py_truthy rc && py_truthy (opt_str known) = true ->
  no_empty_lookup (Call (QueryCustomerInfo known s)).
Proof.
  intros Hc s' [= -> _]. by rewrite andb_false_r in Hc.
Qed.

#[local] Hint Resolve no_empty_lookup_admits : emits.
#[local] Hint Extern 1 (no_empty_lookup (Call (QueryCustomerInfo _ _))) =>
  (eapply truthy_lookup_allowed; eassumption) : emits.
#[local] Hint Extern 2 (no_empty_lookup (Call _)) => (by intros ?) : emits.

(** C9. The empty string as the caller's customer_id is the same as no
    customer_id: the two runs are equal, the extractor is the first agent
    called, and no lookup is made under the empty string. *)
Theorem empty_customer_id_is_absent ticket_content w :
  process_support_ticket ticket_content (Some []) w
  = process_support_ticket ticket_content None w
  /\ exists rest,
       calls (trace (process_support_ticket ticket_content (Some []) w).2)
       = calls (trace w) ++ ExtractCustomerId ticket_content :: rest
       /\ forall query_type, QueryCustomerInfo (Some []) query_type ∉ rest.
Proof.
  split; [reflexivity |].
  unfold process_support_ticket. cbn [opt_str py_truthy negb].
  erewrite bind_returns by apply extract_customer_id_spec.
  match goal with
  | |- context [trace (?k ?a ?w1).2] =>
      assert (Hk : only_emits no_empty_lookup (k a)) by (cbv beta; emits);
      destruct (Hk w1) as (evs & -> & Hevs)
  end.
  exists (calls evs). split.
  - cbv [add_event trace]. rewrite !calls_app. cbn. by rewrite <- !app_assoc.
  - intros s Hin. unfold calls in Hin.
    apply list_elem_of_omap in Hin as (e & He & Hc).
    destruct e; try discriminate. injection Hc as ->.
    apply list_elem_of_In in He. rewrite Forall_forall in Hevs. by apply (Hevs _ He s).
Qed.


(** [call_openai] never raises. *)
Lemma call_openai_returns sp up w :
  exists r, call_openai sp up w = (Returns r, add_event (LlmRequest sp up) w).
Proof.
  cbv [call_openai try_except chat_completions_create ret].
  destruct (llm w sp up); by eexists.
Qed.

(** [compose_reply] never raises. *)
Lemma compose_reply_returns a ci ts t w :
  exists fr w', compose_reply a ci ts t w = (Returns fr, w').
Proof.
  unfold compose_reply. erewrite bind_returns by reflexivity. cbv zeta.
  edestruct call_openai_returns as [fr ->]. by eexists _, _.
Qed.

(** [solve_technical_issue] never raises. *)
Lemma solve_technical_issue_returns t ci w :
  exists ts w', solve_technical_issue t ci w = (Returns ts, w').
Proof.
  unfold solve_technical_issue. erewrite bind_returns by reflexivity. cbv zeta.
  edestruct call_openai_returns as [ts ->]. by eexists _, _.
Qed.

(** The identification never raises. *)
Lemma identification_returns t c w :
  exists known w1,
    (if negb (py_truthy (opt_str c)) then extract_customer_id t else ret c) w
    = (Returns known, w1)
    /\ llm w1 = llm w /\ next_fault w1 = next_fault w
    /\ next_ticket_id w1 = next_ticket_id w.
Proof.
  destruct (negb _).
  - eexists _, _. split; [apply extract_customer_id_spec | done].
  - by eexists _, _.
Qed.

(** A run returns whenever the classifier returns an analysis that has the
    six fields: no later stage raises. *)
Lemma run_returns_on_complete_analysis t c w known w1 a w2 :
  (if negb (py_truthy (opt_str c)) then extract_customer_id t else ret c) w
  = (Returns known, w1) ->
  analyze_ticket t known w1 = (Returns a, w2) ->
  Forall (fun k => is_Some (a !! k)) classification_fields ->
  exists res w', process_support_ticket t c w = (Returns res, w') /\ analysis res = a.
Proof.
  intros S1 S2 Hk. unfold process_support_ticket.
  erewrite bind_returns by exact S1.
  erewrite bind_returns by exact S2.
  unfold classification_fields in Hk.
  apply Forall_cons_1 in Hk as [[ty Kty] Hk].
  apply Forall_cons_1 in Hk as [[ur Kur] Hk].
  apply Forall_cons_1 in Hk as [[rc Krc] Hk].
  apply Forall_cons_1 in Hk as [[rt Krt] Hk].
  apply Forall_cons_1 in Hk as [[se Kse] Hk].
  apply Forall_cons_1 in Hk as [[er Ker] _].
  erewrite bind_returns by (unfold lift, py_getitem; rewrite Kty; reflexivity).
  erewrite bind_returns by (unfold lift, py_getitem; rewrite Kur; reflexivity).
  erewrite bind_returns by (unfold lift, py_getitem; rewrite Krc; reflexivity).
  erewrite bind_returns by (unfold lift, py_getitem; rewrite Krt; reflexivity).
  erewrite bind_returns by (unfold lift, py_getitem; rewrite Kse; reflexivity).
  match goal with
  | |- context [bind ?m _ w2] =>
      assert (S3 : exists ci w3, m w2 = (Returns ci, w3))
  end.
  { destruct (py_truthy rc && py_truthy (opt_str known)).
    - cbv zeta. edestruct query_customer_info_spec as [w3 E].
      eexists _, w3. erewrite bind_returns by exact E. reflexivity.
    - destruct (py_truthy rc); by eexists _, _. }
  destruct S3 as (ci & w3 & S3). erewrite bind_returns by exact S3.
  match goal with
  | |- context [bind ?m _ w3] =>
      assert (S4 : exists ts w4, m w3 = (Returns ts, w4))
  end.
  { destruct (py_truthy rt); [apply solve_technical_issue_returns | by eexists _, _]. }
  destruct S4 as (ts & w4 & S4). erewrite bind_returns by exact S4.
  destruct (compose_reply_returns a ci ts t w4) as (fr & w5 & S5).
  erewrite bind_returns by exact S5.
  assert (S6 : exists w6,
             (if py_truthy (py_get a (u "ticket_id") PyNone)
              then update_ticket_recommendation (py_get a (u "ticket_id") PyNone) fr
              else ret tt) w5 = (Returns tt, w6)).
  { destruct (py_truthy (py_get a (u "ticket_id") PyNone)) eqn:Hid;
      [| eexists; reflexivity].
    edestruct update_ticket_recommendation_spec as (w6 & E & _); [exact Hid |].
    by exists w6. }
  destruct S6 as (w6 & S6). erewrite bind_returns by exact S6.
  cbv zeta.
  erewrite bind_returns by (unfold lift, py_getitem; rewrite Ker; reflexivity).
  by eexists _, _.
Qed.

(** On a failing service the routing procedure still returns a result,
    built on the fallback analysis. *)
Lemma run_on_fallback_returns t c w :
  classification_fails w t ->
  exists res w',
    process_support_ticket t c w = (Returns res, w')
    /\ delete (u "ticket_id") (analysis res) = fallback_analysis.
Proof.
  intros Hf.
  destruct (identification_returns t c w) as (known & w1 & S1 & Hllm & _).
  assert (Hf1 : classification_fails w1 t).
  { unfold classification_fails in *. by rewrite Hllm. }
  destruct (analyze_ticket_fallback_spec w1 t known Hf1) as (w2 & S2 & _).
  destruct (run_returns_on_complete_analysis _ _ _ _ _ _ _ S1 S2)
    as (res & w' & Hrun & Ha).
  { unfold classification_fields.
    repeat (constructor; [by eexists |]). constructor. }
  exists res, w'. split; [exact Hrun |].
  rewrite Ha, delete_insert_eq. by apply delete_id.
Qed.

End Routing.

(** ** Sample runs *)

Lemma returns_inv {A} (r : outcome A * world) :
  returns r = true -> exists a w', r = (Returns a, w').
Proof. destruct r as [[a | e] w']; [by exists a, w' | discriminate]. Qed.

Section Samples.

#[local] Existing Instance sample_runtime.


(** Scenario A, end to end: the lookup is called once, under CUST001 and
    with the billing scope, and the agents are as the specification lists
    them. *)
Example scenario_a_run :
  lookups (trace (process_support_ticket billing_ticket None scenario_a).2)
  = [(Some (u "CUST001"), u "billing")]
  /\ agents_used <$> returned (process_support_ticket billing_ticket None scenario_a)
     = Some [u "TicketAnalyzer"; u "DatabaseAgent"; u "ReplyAgent"]
  /\ technical_solution <$> returned (process_support_ticket billing_ticket None scenario_a)
     = Some None.
Proof. repeat split; vm_compute; reflexivity. Qed.

(** A ticket without an identifier, classified by the fallback: customer
    data is required, no identifier is known, and the lookup is not called. *)
Example scenario_b_run :
  lookups (trace (process_support_ticket (u "Hallo, was kostet der Basic-Plan?") None
                    garbled_world).2) = []
  /\ customer_info <$> returned (process_support_ticket
                                  (u "Hallo, was kostet der Basic-Plan?") None
                                  garbled_world)
     = Some None
  /\ agents_used <$> returned (process_support_ticket
                                (u "Hallo, was kostet der Basic-Plan?") None
                                garbled_world)
     = Some [u "TicketAnalyzer"; u "ReplyAgent"].
Proof. repeat split; vm_compute; reflexivity. Qed.


(** Counterexample to C3 as stated: the solver was called and answered
    with the empty string; technical_solution is not null, and TechSolver
    is not in agents_used. *)
Lemma empty_solution_is_not_counted :
  technical_solution <$> returned (process_support_ticket billing_ticket None silent_solver_world)
  = Some (Some [])
  /\ agents_used <$> returned (process_support_ticket billing_ticket None silent_solver_world)
     = Some [u "TicketAnalyzer"; u "ReplyAgent"]
  /\ calls (trace (process_support_ticket billing_ticket None silent_solver_world).2)
     !! 2%nat = Some (SolveTechnicalIssue billing_ticket None).
Proof. repeat split; vm_compute; reflexivity. Qed.

(** Witness of C3 (amended): scenario A. *)
Lemma agents_used_lists_the_agents_witness :
  exists res w',
    process_support_ticket billing_ticket None scenario_a = (Returns res, w')
    /\ NoDup (agents_used res)
    /\ sublist (agents_used res)
         [u "TicketAnalyzer"; u "DatabaseAgent"; u "TechSolver"; u "ReplyAgent"]
    /\ head (agents_used res) = Some (u "TicketAnalyzer")
    /\ list.last (agents_used res) = Some (u "ReplyAgent")
    /\ (u "DatabaseAgent" ∈ agents_used res <-> is_Some (customer_info res))
    /\ (forall info, customer_info res = Some info -> is_Some (info !! u "error") ->
        u "DatabaseAgent" ∈ agents_used res)
    /\ (u "TechSolver" ∈ agents_used res <->
        exists s, technical_solution res = Some s /\ s <> []).
Proof.
  destruct (returns_inv (process_support_ticket billing_ticket None scenario_a))
    as (res & w' & Hrun); [vm_compute; reflexivity |].
  exists res, w'. split; [exact Hrun |].
  exact (agents_used_lists_the_agents billing_ticket None scenario_a res w' Hrun).
Defined.

(** Counterexample to C4 as stated: the connection fails with "timeout
    expired"; the error object is the fixed one and does not contain the
    cause. *)
Lemma connection_failure_hides_its_cause :
  next_fault unreachable_store = Some (ConnectFails (u "timeout expired"))
  /\ returned (query_customer_info (Some (u "CUST001")) (u "full") unreachable_store)
     = Some {[ u "error" := PyStr (u "Database connection failed") ]}
  /\ py_in (u "timeout expired") (u "Database connection failed") = false
  /\ printed (trace (query_customer_info (Some (u "CUST001")) (u "full")
                       unreachable_store).2)
     = [LogQueryingCustomer (Some (u "CUST001"));
        LogConnectionError (Error (u "timeout expired"))].
Proof. repeat split; vm_compute; reflexivity. Qed.


(** Counterexample to C6 as stated: the raw answer does not start with
    CUST, and is not mapped to null. *)
Lemma padded_answer_is_accepted :
  llm padded_answer_world extract_customer_id_system_prompt
    (extract_customer_id_user_prompt billing_ticket)
  = LlmReturns (Some (u " CUST001"))
  /\ startswith (u " CUST001") (u "CUST") = false
  /\ returned (extract_customer_id billing_ticket padded_answer_world)
     = Some (Some (u "CUST001")).
Proof. repeat split; vm_compute; reflexivity. Qed.



(** Witness of C8 (amended): the service answers with the token. *)
Lemma extract_customer_id_returns_the_service_token_witness :
  labelled_with labelled_ticket (u "CUST007")
  /\ cust_token (u "CUST007") = true
  /\ ((extract_customer_id labelled_ticket token_answer_world).1
      = Returns (Some (u "CUST007"))
      <-> strip (u "CUST007" ++ [10%N]) = u "CUST007").
Proof.
  assert (Hl : labelled_with labelled_ticket (u "CUST007")) by (by exists [], []).
  split; [exact Hl |]. split; [reflexivity |].
  exact (extract_customer_id_returns_the_service_token token_answer_world
           labelled_ticket (u "CUST007") (u "CUST007" ++ [10%N]) Hl eq_refl eq_refl).
Defined.

(** Counterexample to C8 as stated: the text holds a labelled token, the
    service is down, and the extractor returns null. *)
Lemma labelled_token_is_not_returned :
  labelled_ticket = u "Customer ID: " ++ u "CUST007"
  /\ cust_token (u "CUST007") = true
  /\ returned (extract_customer_id labelled_ticket (sample_world failing_service []))
     = Some None.
Proof. repeat split; vm_compute; reflexivity. Qed.

(** Witness of C10: the billing-scope lookup of CUST001. *)
Lemma billing_status_is_constant_witness :
  exists d w',
    query_customer_info (Some (u "CUST001")) (u "billing") scenario_a = (Returns d, w')
    /\ d !! u "error" = None
    /\ d !! u "status" = Some (PyStr (u "Active")).
Proof.
  destruct (returns_inv (query_customer_info (Some (u "CUST001")) (u "billing") scenario_a))
    as (d & w' & Hq); [vm_compute; reflexivity |].
  assert (Hd : d !! u "error" = None).
  { assert (Hr : returned (query_customer_info (Some (u "CUST001")) (u "billing") scenario_a)
                 ≫= (.!! u "error") = None) by (vm_compute; reflexivity).
    by rewrite Hq in Hr. }
  exists d, w'. split; [exact Hq |]. split; [exact Hd |].
  exact (proj1 (billing_status_is_constant scenario_a (u "CUST001") d w' Hq Hd)).
Defined.

End Samples.
(** ** Invariants of the world *)

Section Invariants.

Context {A B : Type} (I : world -> Prop).

Lemma preserves_ret (a : A) : preserves I (ret a).
Proof. by intros w. Qed.

Lemma preserves_raise (e : exn) : preserves I (@raise A e).
Proof. by intros w. Qed.

Lemma preserves_lift (o : outcome A) : preserves I (lift o).
Proof. by intros w. Qed.

Lemma preserves_bind (m : M A) (k : A -> M B) :
  preserves I m -> (forall a, preserves I (k a)) -> preserves I (bind m k).
Proof.
  intros Hm Hk w Hw. unfold bind. specialize (Hm w Hw).
  destruct (m w) as [[a | e] w1]; simpl in *; [by apply Hk | done].
Qed.

Lemma preserves_try_except (body : M A) (handler : exn -> M A) :
  preserves I body -> (forall e, preserves I (handler e)) ->
  preserves I (try_except body handler).
Proof.
  intros Hm Hk w Hw. unfold try_except. specialize (Hm w Hw).
  destruct (body w) as [[a | e] w1]; simpl in *; [done | by apply Hk].
Qed.

Lemma preserves_try_finally (body : M A) (cleanup : M unit) :
  preserves I body -> preserves I cleanup ->
  preserves I (try_finally body cleanup).
Proof.
  intros Hm Hk w Hw. unfold try_finally. specialize (Hm w Hw).
  destruct (body w) as [r w1]; simpl in *. specialize (Hk w1 Hm).
  by destruct (cleanup w1) as [[[] | e] w2].
Qed.

End Invariants.

Create HintDb keeps.

Ltac keeps_step :=
  match goal with
  | |- preserves _ (bind _ _) => apply preserves_bind; [| intros ?]
  | |- preserves _ (ret _) => apply preserves_ret
  | |- preserves _ (raise _) => apply preserves_raise
  | |- preserves _ (lift _) => apply preserves_lift
  | |- preserves _ (try_except _ _) => apply preserves_try_except; [| intros ?]
  | |- preserves _ (try_finally _ _) => apply preserves_try_finally
  | |- preserves _ (if ?b then _ else _) => destruct b eqn:?
  | |- preserves _ (match ?x with _ => _ end) => destruct x eqn:?
  | |- preserves _ (let _ := _ in _) => cbv zeta
  end.

Ltac keeps := repeat first [ keeps_step | solve [auto with keeps] ].

(** What the code does to the world, step by step: an invariant that
    outlives each of these steps outlives the agents that take them. *)
Section StoreInvariants.

Context `{PyRuntime} (I : world -> Prop).

Hypothesis I_event : forall e w, I w -> I (add_event e w).

Lemma emit_preserves e : preserves I (emit e).
Proof. intros w Hw. by apply I_event. Qed.

Lemma print_preserves l : preserves I (print l).
Proof. apply emit_preserves. Qed.

Lemma chat_completions_create_preserves sp up :
  preserves I (chat_completions_create sp up).
Proof.
  intros w Hw. unfold chat_completions_create.
  destruct (llm w sp up); by apply I_event.
Qed.

Lemma json_loads_preserves s : preserves I (json_loads s).
Proof. unfold json_loads. destruct (json_parse s); by intros w. Qed.

Lemma require_str_preserves o m : preserves I (require_str o m).
Proof. destruct o; by intros w. Qed.

#[local] Hint Resolve emit_preserves print_preserves chat_completions_create_preserves
  json_loads_preserves require_str_preserves : keeps.

Lemma call_openai_preserves sp up : preserves I (call_openai sp up).
Proof. unfold call_openai. keeps. Qed.

#[local] Hint Resolve call_openai_preserves : keeps.

Lemma classify_preserves t :
  preserves I
    (try_except
       (response <- call_openai analyze_ticket_system_prompt (analyze_ticket_user_prompt t) ;;
        response <- require_str response "strip" ;;
        let response := unfence response in
        json_loads response)
       (fun _ => ret (PyDict fallback_analysis))).
Proof. keeps. Qed.

Lemma extract_customer_id_preserves t : preserves I (extract_customer_id t).
Proof. unfold extract_customer_id. keeps. Qed.

Lemma solve_technical_issue_preserves t ci : preserves I (solve_technical_issue t ci).
Proof. unfold solve_technical_issue. keeps. Qed.

Lemma compose_reply_preserves a ci ts t : preserves I (compose_reply a ci ts t).
Proof. unfold compose_reply. keeps. Qed.

Lemma date_to_string_preserves k d : preserves I (date_to_string k d).
Proof. unfold date_to_string. keeps. Qed.

#[local] Hint Resolve classify_preserves extract_customer_id_preserves
  solve_technical_issue_preserves compose_reply_preserves
  date_to_string_preserves : keeps.

Hypothesis I_faults : forall f fs w, faults w = f :: fs -> I w -> I (set_faults fs w).
Hypothesis I_pending : forall p w, I w -> I (set_pending p w).

Lemma psycopg2_connect_preserves : preserves I psycopg2_connect.
Proof.
  intros w Hw. unfold psycopg2_connect.
  destruct (faults w) as [| [[e | e | e] |] fs] eqn:E; simpl;
    first [ by apply I_event
          | by apply (I_faults _ _ (add_event DbConnect w) E), I_event ].
Qed.

Lemma conn_rollback_preserves c : preserves I (conn_rollback c).
Proof. intros w Hw. by apply I_pending, I_event. Qed.

Lemma conn_close_preserves c : preserves I (conn_close c).
Proof. intros w Hw. by apply I_pending, I_event. Qed.

Lemma select_preserves c s :
  (forall cid ty ur rc rt se er t, s <> InsertTicket cid ty ur rc rt se er t) ->
  (forall a i, s <> UpdateRecommendedAnswer a i) ->
  preserves I (cursor_execute c s).
Proof.
  intros Hi Hu w Hw. unfold cursor_execute.
  destruct (session_fault c) as [[e | e | e] |]; simpl; try by apply I_event.
  all: destruct s; simpl; first [ by apply I_event | by edestruct Hi | by edestruct Hu ].
Qed.

#[local] Hint Resolve psycopg2_connect_preserves conn_rollback_preserves
  conn_close_preserves : keeps.

Lemma _get_connection_preserves : preserves I _get_connection.
Proof. unfold _get_connection. keeps. Qed.

#[local] Hint Resolve _get_connection_preserves : keeps.

Lemma query_customer_info_preserves c s : preserves I (query_customer_info c s).
Proof.
  unfold query_customer_info. keeps; by apply select_preserves.
Qed.

#[local] Hint Resolve query_customer_info_preserves : keeps.

Hypothesis I_serial : forall w, I w -> I (set_next_ticket_id (next_ticket_id w + 1) w).
Hypothesis I_tickets : forall p w,
  pending w = Some p -> I w -> I (set_tickets (apply_write p (tickets w)) w).

Lemma cursor_execute_preserves c s : preserves I (cursor_execute c s).
Proof.
  intros w Hw. unfold cursor_execute.
  destruct (session_fault c) as [[e | e | e] |]; simpl; try by apply I_event.
  all: destruct s; simpl;
    first [ by apply I_event | by apply I_pending, I_event
          | by apply I_pending, (I_serial (add_event _ w)), I_event ].
Qed.

Lemma conn_commit_preserves c : preserves I (conn_commit c).
Proof.
  intros w Hw. unfold conn_commit.
  destruct (session_fault c) as [[e | e | e] |]; simpl; try by apply I_event.
  all: destruct (pending w) as [p |] eqn:E; simpl;
    first [ by apply I_event | by apply I_pending, (I_tickets p (add_event _ w)), I_event ].
Qed.

#[local] Hint Resolve cursor_execute_preserves conn_commit_preserves : keeps.

Lemma _save_ticket_to_db_preserves a c t : preserves I (_save_ticket_to_db a c t).
Proof. unfold _save_ticket_to_db. keeps. Qed.

#[local] Hint Resolve _save_ticket_to_db_preserves : keeps.

Lemma analyze_ticket_preserves t c : preserves I (analyze_ticket t c).
Proof. unfold analyze_ticket. keeps. Qed.

Lemma update_ticket_recommendation_preserves i a :
  preserves I (update_ticket_recommendation i a).
Proof. unfold update_ticket_recommendation. keeps. Qed.

#[local] Hint Resolve analyze_ticket_preserves update_ticket_recommendation_preserves
  : keeps.

Lemma process_support_ticket_preserves t c : preserves I (process_support_ticket t c).
Proof. unfold process_support_ticket. keeps. Qed.

End StoreInvariants.

(** ** The protocol of the store *)

Lemma store_protocol_app st evs1 evs2 :
  store_protocol st (evs1 ++ evs2)
  = store_protocol st evs1 ≫= fun st' => store_protocol st' evs2.
Proof.
  revert st. induction evs1 as [| e evs1 IH]; intros [o fs]; [done |].
  destruct e, o, fs as [| [[] |] fs]; simpl; by rewrite ?IH.
Qed.

Section Protocol.

Context {A B : Type}.

Lemma follows_protocol_silent (m : M A) :
  (forall w, store_calls (trace (m w).2) = store_calls (trace w)
             /\ faults (m w).2 = faults w) ->
  follows_protocol m.
Proof.
  intros Hm w. destruct (Hm w) as [Hs Hf]. exists [].
  by rewrite app_nil_r, Hs, Hf.
Qed.

Lemma follows_protocol_ret (a : A) : follows_protocol (ret a).
Proof. by apply follows_protocol_silent. Qed.

Lemma follows_protocol_raise (e : exn) : follows_protocol (@raise A e).
Proof. by apply follows_protocol_silent. Qed.

Lemma follows_protocol_lift (o : outcome A) : follows_protocol (lift o).
Proof. by apply follows_protocol_silent. Qed.

Lemma follows_protocol_bind (m : M A) (k : A -> M B) :
  follows_protocol m -> (forall a, follows_protocol (k a)) ->
  follows_protocol (bind m k).
Proof.
  intros Hm Hk w. unfold bind.
  destruct (Hm w) as (e1 & E1 & P1).
  destruct (m w) as [[a | e] w1]; simpl in *.
  - destruct (Hk a w1) as (e2 & E2 & P2).
    exists (e1 ++ e2). rewrite E2, E1, app_assoc. split; [done |].
    by rewrite store_protocol_app, P1.
  - by exists e1.
Qed.

Lemma follows_protocol_try_except (body : M A) (handler : exn -> M A) :
  follows_protocol body -> (forall e, follows_protocol (handler e)) ->
  follows_protocol (try_except body handler).
Proof.
  intros Hm Hk w. unfold try_except.
  destruct (Hm w) as (e1 & E1 & P1).
  destruct (body w) as [[a | e] w1]; simpl in *.
  - by exists e1.
  - destruct (Hk e w1) as (e2 & E2 & P2).
    exists (e1 ++ e2). rewrite E2, E1, app_assoc. split; [done |].
    by rewrite store_protocol_app, P1.
Qed.

End Protocol.

Lemma follows_protocol_emit e : store_call e = None -> follows_protocol (emit e).
Proof.
  intros He. apply follows_protocol_silent. intros w. split; [| done].
  cbv [emit add_event trace snd]. rewrite store_calls_app. simpl.
  by rewrite He, app_nil_r.
Qed.

Create HintDb protocol.

Ltac protocol_step :=
  match goal with
  | |- follows_protocol (bind _ _) => apply follows_protocol_bind; [| intros ?]
  | |- follows_protocol (ret _) => apply follows_protocol_ret
  | |- follows_protocol (raise _) => apply follows_protocol_raise
  | |- follows_protocol (lift _) => apply follows_protocol_lift
  | |- follows_protocol (try_except _ _) =>
      apply follows_protocol_try_except; [| intros ?]
  | |- follows_protocol (emit _) => by apply follows_protocol_emit
  | |- follows_protocol (if ?b then _ else _) => destruct b eqn:?
  | |- follows_protocol (match ?x with _ => _ end) => destruct x eqn:?
  | |- follows_protocol (let _ := _ in _) => cbv zeta
  end.

Ltac protocol := repeat first [ protocol_step | solve [auto with protocol] ].

Section StoreProtocol.

Context `{PyRuntime}.

Lemma chat_completions_create_follows sp up :
  follows_protocol (chat_completions_create sp up).
Proof.
  apply follows_protocol_silent. intros w. unfold chat_completions_create.
  destruct (llm w sp up); cbv [add_event trace faults snd];
    rewrite store_calls_app; simpl; by rewrite app_nil_r.
Qed.

Lemma json_loads_follows s : follows_protocol (json_loads s).
Proof. unfold json_loads. protocol. Qed.

Lemma require_str_follows o m : follows_protocol (require_str o m).
Proof. unfold require_str. protocol. Qed.

#[local] Hint Resolve chat_completions_create_follows json_loads_follows
  require_str_follows : protocol.

Lemma call_openai_follows sp up : follows_protocol (call_openai sp up).
Proof. unfold call_openai. protocol. Qed.

#[local] Hint Resolve call_openai_follows : protocol.

Lemma extract_customer_id_follows t : follows_protocol (extract_customer_id t).
Proof. unfold extract_customer_id. protocol. Qed.

Lemma solve_technical_issue_follows t ci : follows_protocol (solve_technical_issue t ci).
Proof. unfold solve_technical_issue. protocol. Qed.

Lemma compose_reply_follows a ci ts t : follows_protocol (compose_reply a ci ts t).
Proof. unfold compose_reply. protocol. Qed.

End StoreProtocol.

#[export] Hint Resolve chat_completions_create_follows json_loads_follows
  require_str_follows call_openai_follows extract_customer_id_follows
  solve_technical_issue_follows compose_reply_follows : protocol.

(** *** On an open connection *)

Section InSession.

Context {A B : Type}.

Lemma in_session_ret (a : A) : in_session (ret a).
Proof. intros w. exists []. by rewrite app_nil_r. Qed.

Lemma in_session_raise (e : exn) : in_session (@raise A e).
Proof. intros w. exists []. by rewrite app_nil_r. Qed.

Lemma in_session_lift (o : outcome A) : in_session (lift o).
Proof. intros w. exists []. by rewrite app_nil_r. Qed.

Lemma in_session_bind (m : M A) (k : A -> M B) :
  in_session m -> (forall a, in_session (k a)) -> in_session (bind m k).
Proof.
  intros Hm Hk w. unfold bind.
  destruct (Hm w) as (e1 & E1 & P1 & F1).
  destruct (m w) as [[a | e] w1]; simpl in *.
  - destruct (Hk a w1) as (e2 & E2 & P2 & F2).
    exists (e1 ++ e2). rewrite E2, E1, app_assoc, forallb_app, P1, P2, F2, F1. done.
  - by exists e1.
Qed.

Lemma in_session_try_except (body : M A) (handler : exn -> M A) :
  in_session body -> (forall e, in_session (handler e)) ->
  in_session (try_except body handler).
Proof.
  intros Hm Hk w. unfold try_except.
  destruct (Hm w) as (e1 & E1 & P1 & F1).
  destruct (body w) as [[a | e] w1]; simpl in *.
  - by exists e1.
  - destruct (Hk e w1) as (e2 & E2 & P2 & F2).
    exists (e1 ++ e2). rewrite E2, E1, app_assoc, forallb_app, P1, P2, F2, F1. done.
Qed.

End InSession.

Lemma in_session_emit e :
  store_call e = None \/ session_op e = true -> in_session (emit e).
Proof.
  intros He w. cbv [emit add_event trace faults snd]. rewrite store_calls_app.
  destruct He as [He | He].
  - exists []. simpl. by rewrite He.
  - exists [e]. by destruct e.
Qed.

Lemma cursor_execute_in_session c s : in_session (cursor_execute c s).
Proof.
  intros w. exists [DbExecute s]. unfold cursor_execute.
  destruct (session_fault c) as [[e | e | e] |]; try destruct s;
    cbv [run_statement add_event set_pending set_next_ticket_id trace faults snd];
    by rewrite store_calls_app.
Qed.

Lemma conn_commit_in_session c : in_session (conn_commit c).
Proof.
  intros w. exists [DbCommit]. unfold conn_commit.
  destruct (session_fault c) as [[e | e | e] |]; try destruct (pending _);
    cbv [add_event set_pending set_tickets trace faults snd];
    by rewrite store_calls_app.
Qed.

Lemma conn_rollback_in_session c : in_session (conn_rollback c).
Proof.
  intros w. exists [DbRollback].
  cbv [conn_rollback add_event set_pending trace faults snd].
  by rewrite store_calls_app.
Qed.

Lemma print_in_session l : in_session (print l).
Proof. apply in_session_emit. by left. Qed.

Create HintDb session.

#[export] Hint Resolve cursor_execute_in_session conn_commit_in_session
  conn_rollback_in_session print_in_session : session.

Ltac session_step :=
  match goal with
  | |- in_session (bind _ _) => apply in_session_bind; [| intros ?]
  | |- in_session (ret _) => apply in_session_ret
  | |- in_session (raise _) => apply in_session_raise
  | |- in_session (lift _) => apply in_session_lift
  | |- in_session (try_except _ _) => apply in_session_try_except; [| intros ?]
  | |- in_session (if ?b then _ else _) => destruct b eqn:?
  | |- in_session (match ?x with _ => _ end) => destruct x eqn:?
  | |- in_session (let _ := _ in _) => cbv zeta
  end.

Ltac session := repeat first [ session_step | solve [auto with session] ].

Lemma session_ops_keep_open fs ops :
  forallb session_op ops = true ->
  store_protocol (true, fs) (ops ++ [DbClose]) = Some (false, fs).
Proof.
  induction ops as [| e ops IH]; [done |].
  simpl. intros [He Hops]%andb_true_iff. by destruct e; try discriminate; apply IH.
Qed.

(** [conn = self._get_connection()], [if not conn: ...], [try: ...] /
    [finally: conn.close()]: one whole session, whatever the body does on
    the connection. *)
Lemma session_follows {A} (body : conn -> M A) (on_fail : M A) :
  (forall c, in_session (body c)) ->
  (forall w, store_calls (trace (on_fail w).2) = store_calls (trace w)
             /\ faults (on_fail w).2 = faults w) ->
  follows_protocol
    (conn <- _get_connection ;;
     match conn with
     | None => on_fail
     | Some conn => try_finally (body conn) (conn_close conn)
     end).
Proof.
  intros Hbody Hfail w.
  assert (Hopen : forall f fs w1,
    store_calls (trace w1) = store_calls (trace w) ++ [DbConnect] ->
    faults w1 = fs ->
    (forall e, f <> Some (ConnectFails e)) ->
    faults w = [] /\ fs = [] \/ faults w = f :: fs ->
    exists evs,
      store_calls (trace (try_finally (body (Conn f)) (conn_close (Conn f)) w1).2)
      = store_calls (trace w) ++ evs
      /\ store_protocol (false, faults w) evs
         = Some (false, faults (try_finally (body (Conn f)) (conn_close (Conn f)) w1).2)).
  { intros f fs w1 Hs Hf Hnf Hw. unfold try_finally.
    destruct (Hbody (Conn f) w1) as (ops & E & P & F).
    destruct (body (Conn f) w1) as [r w2]; simpl in *.
    exists (DbConnect :: ops ++ [DbClose]).
    rewrite store_calls_app, E, Hs, <- !app_assoc. split; [done |].
    rewrite F, Hf.
    destruct Hw as [[-> ->] | ->]; simpl; [by apply session_ops_keep_open |].
    destruct f as [[e | e | e] |]; simpl; try by apply session_ops_keep_open.
    by destruct (Hnf e). }
  set (m := bind _get_connection _).
  assert (Hrun : m w =
    match faults w with
    | [] => try_finally (body (Conn None)) (conn_close (Conn None)) (add_event DbConnect w)
    | Some (ConnectFails e) :: fs =>
        on_fail (add_event (Print (LogConnectionError (Error e)))
                   (set_faults fs (add_event DbConnect w)))
    | f :: fs =>
        try_finally (body (Conn f)) (conn_close (Conn f))
          (set_faults fs (add_event DbConnect w))
    end).
  { unfold m, bind, _get_connection, try_except, bind, psycopg2_connect, print, emit, ret.
    by destruct (faults w) as [| [[e | e | e] |] fs]. }
  rewrite Hrun. clear Hrun m.
  destruct (faults w) as [| [[e | e | e] |] fs] eqn:E.
  - apply (Hopen None []); cbv [add_event trace faults]; try done;
      [by rewrite store_calls_app | by left].
  - destruct (Hfail (add_event (Print (LogConnectionError (Error e)))
                       (set_faults fs (add_event DbConnect w)))) as [Hs Hf].
    exists [DbConnect]. rewrite Hs, Hf.
    cbv [add_event set_faults trace faults]. fold (trace w).
    by rewrite !store_calls_app, app_nil_r.
  - apply (Hopen (Some (ExecuteFails e)) fs); cbv [add_event set_faults trace faults];
      try done; [by rewrite store_calls_app | by right].
  - apply (Hopen (Some (CommitFails e)) fs); cbv [add_event set_faults trace faults];
      try done; [by rewrite store_calls_app | by right].
  - apply (Hopen None fs); cbv [add_event set_faults trace faults];
      try done; [by rewrite store_calls_app | by right].
Qed.

Section StoreSessions.

Context `{PyRuntime}.

Lemma date_to_string_in_session k d : in_session (date_to_string k d).
Proof. unfold date_to_string. session. Qed.

#[local] Hint Resolve date_to_string_in_session : session.

Lemma _save_ticket_to_db_follows a c t : follows_protocol (_save_ticket_to_db a c t).
Proof.
  unfold _save_ticket_to_db.
  apply follows_protocol_bind; [by apply follows_protocol_emit | intros _].
  apply (session_follows
           (fun conn =>
              try_except
                (ticket_type <- lift (py_getitem a (u "ticket_type")) ;;
                 urgency <- lift (py_getitem a (u "urgency")) ;;
                 requires_customer_data <- lift (py_getitem a (u "requires_customer_data")) ;;
                 requires_technical_help <- lift (py_getitem a (u "requires_technical_help")) ;;
                 customer_sentiment <- lift (py_getitem a (u "customer_sentiment")) ;;
                 estimated_resolution_time <-
                   lift (py_getitem a (u "estimated_resolution_time")) ;;
                 row <- cursor_execute conn
                          (InsertTicket c ticket_type urgency requires_customer_data
                             requires_technical_help customer_sentiment
                             estimated_resolution_time t) ;;
                 ticket_id <- lift (py_getitem (opt_dict row) (u "ticket_id")) ;;
                 conn_commit conn ;;
                 print (LogTicketSaved ticket_id) ;;
                 ret ticket_id)
                (fun e => print (LogErrorSavingTicket e) ;; conn_rollback conn ;; ret PyNone))).
  - intros conn. session.
  - intros w. cbv [print emit bind ret add_event trace faults snd].
    by rewrite store_calls_app, app_nil_r.
Qed.

Lemma update_ticket_recommendation_follows i a :
  follows_protocol (update_ticket_recommendation i a).
Proof.
  unfold update_ticket_recommendation.
  apply follows_protocol_bind; [by apply follows_protocol_emit | intros _].
  destruct (negb (py_truthy i)); [apply follows_protocol_ret |].
  apply follows_protocol_bind; [by apply follows_protocol_emit | intros _].
  apply (session_follows
           (fun conn =>
              try_except
                (cursor_execute conn (UpdateRecommendedAnswer a i) ;;
                 conn_commit conn ;;
                 print (LogTicketUpdated i))
                (fun e => print (LogErrorUpdatingTicket e) ;; conn_rollback conn))).
  - intros conn. session.
  - intros w. cbv [print emit bind ret add_event trace faults snd].
    by rewrite store_calls_app, app_nil_r.
Qed.

Lemma query_customer_info_follows c s : follows_protocol (query_customer_info c s).
Proof.
  unfold query_customer_info.
  apply follows_protocol_bind; [by apply follows_protocol_emit | intros _].
  apply follows_protocol_bind; [by apply follows_protocol_emit | intros _].
  destruct c as [id |]; [| apply follows_protocol_ret].
  destruct (negb (py_truthy (PyStr id)) || negb (startswith id (u "CUST")));
    [apply follows_protocol_ret |].
  apply (session_follows
           (fun conn =>
              try_except
                (result <-
                   (if bool_decide (s = u "billing") then
                      cursor_execute conn (SelectBilling id)
                    else if bool_decide (s = u "history") then
                      cursor_execute conn (SelectHistory id)
                    else
                      cursor_execute conn (SelectFull id)) ;;
                 match result with
                 | Some row =>
                     let customer_data := row in
                     customer_data <- date_to_string (u "join_date") customer_data ;;
                     customer_data <- date_to_string (u "last_payment") customer_data ;;
                     ret (history_to_list customer_data)
                 | None =>
                     ret {[ u "error" := PyStr (u "Customer " ++ id
                                                ++ u " not found in database") ]}
                 end)
                (fun e =>
                   print (LogQueryError e) ;;
                   ret {[ u "error" := PyStr (u "Database query failed: " ++ exn_str e) ]}))).
  - intros conn. session.
  - by intros w.
Qed.

#[local] Hint Resolve _save_ticket_to_db_follows
  update_ticket_recommendation_follows query_customer_info_follows : protocol.

Lemma analyze_ticket_follows t c : follows_protocol (analyze_ticket t c).
Proof. unfold analyze_ticket. protocol. Qed.

#[local] Hint Resolve analyze_ticket_follows : protocol.

Lemma process_support_ticket_follows t c : follows_protocol (process_support_ticket t c).
Proof. unfold process_support_ticket. protocol. Qed.

(** X1. Every connection to the store is closed: whatever the inputs, the
    answers of the completion service and the faults of the store, what
    [_save_ticket_to_db], [update_ticket_recommendation],
    [query_customer_info] and a whole run of [process_support_ticket] (one
    that returns or one that raises) send to the store is a sequence of
    whole sessions. Statements, commits and rollbacks happen on an open
    connection only, a connection that was opened is closed before the next
    one is opened and before the method ends, and a connection that failed
    is never used. *)
Theorem every_connection_is_closed :
  (forall analysis customer_id incoming_content,
     follows_protocol (_save_ticket_to_db analysis customer_id incoming_content))
  /\ (forall ticket_id recommended_answer,
        follows_protocol (update_ticket_recommendation ticket_id recommended_answer))
  /\ (forall customer_id query_type,
        follows_protocol (query_customer_info customer_id query_type))
  /\ (forall ticket_content customer_id,
        follows_protocol (process_support_ticket ticket_content customer_id)).
Proof.
  repeat split; intros.
  - apply _save_ticket_to_db_follows.
  - apply update_ticket_recommendation_follows.
  - apply query_customer_info_follows.
  - apply process_support_ticket_follows.
Qed.

End StoreSessions.

(** ** Storing a ticket *)

Section Saving.

Context `{PyRuntime}.

Ltac saved K1 K2 K3 K4 K5 K6 :=
  run; cbv [py_getitem type_name];
  rewrite ?K1; run; rewrite ?K2; run; rewrite ?K3; run; rewrite ?K4; run;
  rewrite ?K5; run; rewrite ?K6; run; rewrite ?lookup_singleton_eq; run;
  do 2 eexists; (split; [reflexivity |]);
  first [ left; split; reflexivity
        | right; eexists _, _, _, _, _, _, _; repeat split;
          first [ reflexivity | eassumption ] ].

Ltac field_in :=
  unfold classification_fields;
  repeat first [ apply list_elem_of_here | apply list_elem_of_further ].

Ltac not_saved :=
  run; cbv [py_getitem type_name]; run;
  do 2 eexists; (split; [reflexivity |]); left; split; reflexivity.

(** What [_save_ticket_to_db] returns and what it leaves in the table. *)
Lemma save_ticket_outcome a c t w :
  exists r w',
    _save_ticket_to_db a c t w = (Returns r, w')
    /\ (r = PyNone /\ tickets w' = tickets w
        \/ exists d ty ur rc rt se er,
             a = PyDict d
             /\ d !! u "ticket_type" = Some ty
             /\ d !! u "urgency" = Some ur
             /\ d !! u "requires_customer_data" = Some rc
             /\ d !! u "requires_technical_help" = Some rt
             /\ d !! u "customer_sentiment" = Some se
             /\ d !! u "estimated_resolution_time" = Some er
             /\ next_fault w = None
             /\ r = PyInt (next_ticket_id w)
             /\ tickets w' =
                  <[next_ticket_id w := TicketRow c ty ur rc rt se er t None]> (tickets w)
             /\ next_ticket_id w' = (next_ticket_id w + 1)%Z).
Proof.
  destruct w as [l cs tk n fs p tr]. unfold next_fault.
  destruct a as [| | | | | | d |];
    try (destruct fs as [| [[e | e | e] |] fs]; not_saved).
  destruct (d !! u "ticket_type") eqn:K1;
    [| destruct fs as [| [[e | e | e] |] fs]; saved K1 K1 K1 K1 K1 K1].
  destruct (d !! u "urgency") eqn:K2;
    [| destruct fs as [| [[e | e | e] |] fs]; saved K1 K2 K1 K1 K1 K1].
  destruct (d !! u "requires_customer_data") eqn:K3;
    [| destruct fs as [| [[e | e | e] |] fs]; saved K1 K2 K3 K1 K1 K1].
  destruct (d !! u "requires_technical_help") eqn:K4;
    [| destruct fs as [| [[e | e | e] |] fs]; saved K1 K2 K3 K4 K1 K1].
  destruct (d !! u "customer_sentiment") eqn:K5;
    [| destruct fs as [| [[e | e | e] |] fs]; saved K1 K2 K3 K4 K5 K1].
  destruct (d !! u "estimated_resolution_time") eqn:K6;
    destruct fs as [| [[e | e | e] |] fs]; saved K1 K2 K3 K4 K5 K6.
Qed.


(** X3. The reply is attached to the ticket that was stored: after
    [_save_ticket_to_db] returned a serial other than 0, an
    [update_ticket_recommendation] under that serial in a healthy session
    sets the recommended answer of that row, keeps its other columns, and
    leaves every other row as it was before the insert. *)
Theorem stored_ticket_gets_the_reply analysis customer_id incoming_content answer w id w1 :
  _save_ticket_to_db analysis customer_id incoming_content w = (Returns (PyInt id), w1) ->
  id <> 0%Z ->
  next_fault w1 = None ->
  exists row w2,
    update_ticket_recommendation (PyInt id) answer w1 = (Returns tt, w2)
    /\ tickets w1 !! id = Some row
    /\ t_customer_id row = customer_id
    /\ t_incoming_content row = incoming_content
    /\ t_recommended_answer row = None
    /\ tickets w2 !! id = Some (set_recommended_answer answer row)
    /\ forall j, j <> id -> tickets w2 !! j = tickets w !! j.
Proof.
  intros Hsave Hid Hf.
  destruct (save_ticket_outcome analysis customer_id incoming_content w)
    as (r & w' & Hrun & Hcases).
  assert (r = PyInt id /\ w' = w1) as [-> ->] by (split; congruence).
  destruct Hcases as [[? _] | (d & ty & ur & rc & rt & se & er & -> & K1 & K2 & K3 & K4
                                 & K5 & K6 & _ & Hr & Ht & _)]; [done |].
  assert (Hn : next_ticket_id w = id) by congruence.
  rewrite Hn in Ht.
  destruct (update_ticket_recommendation_spec (PyInt id) answer w1)
    as (w2 & Hup & _ & _ & Ht2).
  { simpl. by apply negb_true_iff, Z.eqb_neq. }
  rewrite Hf in Ht2. cbn [apply_write] in Ht2.
  eexists _, w2. split; [exact Hup |].
  rewrite Ht2, Ht. rewrite lookup_insert_eq.
  repeat split; try reflexivity.
  - by rewrite lookup_alter_eq, lookup_insert_eq.
  - intros j Hj. by rewrite lookup_alter_ne, lookup_insert_ne.
Qed.

(** X4. Updating a ticket that does not exist is reported as a success:
    under a serial (other than 0) that [tickets] does not hold, in a
    healthy session, [update_ticket_recommendation] sends the statement and
    the commit, changes no row, and prints that the ticket was updated. *)
Theorem update_of_a_missing_ticket_reports_success id answer w :
  id <> 0%Z ->
  next_fault w = None ->
  tickets w !! id = None ->
  exists w',
    update_ticket_recommendation (PyInt id) answer w = (Returns tt, w')
    /\ tickets w' = tickets w
    /\ store_calls (trace w') =
         store_calls (trace w)
         ++ [DbConnect; DbExecute (UpdateRecommendedAnswer answer (PyInt id));
             DbCommit; DbClose]
    /\ printed (trace w') =
         printed (trace w) ++ [LogUpdatingTicket (PyInt id); LogTicketUpdated (PyInt id)].
Proof.
  intros Hid Hf Hrow.
  destruct (update_ticket_recommendation_spec (PyInt id) answer w)
    as (w' & Hup & Hs & Hp & Ht).
  { simpl. by apply negb_true_iff, Z.eqb_neq. }
  rewrite Hf in Hs, Hp, Ht. exists w'. repeat split; try assumption.
  rewrite Ht. cbn [apply_write]. apply map_eq. intros j.
  destruct (decide (j = id)) as [-> |].
  - by rewrite lookup_alter_eq, Hrow.
  - by rewrite lookup_alter_ne.
Qed.

End Saving.

(** ** The classifier on every answer *)

Section Classification.

Context `{PyRuntime}.

Lemma classify_spec t w :
  try_except
    (response <- call_openai analyze_ticket_system_prompt (analyze_ticket_user_prompt t) ;;
     response <- require_str response "strip" ;;
     let response := unfence response in
     json_loads response)
    (fun _ => ret (PyDict fallback_analysis)) w
  = (Returns (classified w t),
     add_event (LlmRequest analyze_ticket_system_prompt (analyze_ticket_user_prompt t)) w).
Proof.
  unfold classified.
  cbv [try_except bind call_openai chat_completions_create ret].
  destruct (llm w _ _) as [e | [answer |]].
  - cbv [require_str ret json_loads exn_str raise]. by rewrite error_string_not_json.
  - cbv [require_str ret json_loads raise]. by destruct (json_parse (unfence answer)).
  - reflexivity.
Qed.

(** [analyze_ticket], step by step: the classification, the insert, the
    ticket id. *)
Lemma analyze_ticket_steps t c w :
  exists tid w',
    _save_ticket_to_db (classified w t) c t
      (add_event (LlmRequest analyze_ticket_system_prompt (analyze_ticket_user_prompt t))
         (add_event (Call (AnalyzeTicket t c)) w))
    = (Returns tid, w')
    /\ analyze_ticket t c w = lift (py_setitem (classified w t) (u "ticket_id") tid) w'.
Proof.
  unfold analyze_ticket. erewrite bind_returns by reflexivity. cbv zeta.
  erewrite bind_returns by apply classify_spec.
  change (classified (add_event (Call (AnalyzeTicket t c)) w) t) with (classified w t).
  edestruct save_ticket_outcome as (tid & w' & E & _).
  exists tid, w'. split; [exact E |]. by erewrite bind_returns by exact E.
Qed.

Lemma complete_analysis_fields (d : gmap (list N) pyval) :
  Forall (fun k => is_Some (d !! k)) classification_fields <->
  exists ty ur rc rt se er,
    d !! u "ticket_type" = Some ty
    /\ d !! u "urgency" = Some ur
    /\ d !! u "requires_customer_data" = Some rc
    /\ d !! u "requires_technical_help" = Some rt
    /\ d !! u "customer_sentiment" = Some se
    /\ d !! u "estimated_resolution_time" = Some er.
Proof.
  unfold classification_fields. split.
  - intros Hk.
    apply Forall_cons_1 in Hk as [[ty Kty] Hk].
    apply Forall_cons_1 in Hk as [[ur Kur] Hk].
    apply Forall_cons_1 in Hk as [[rc Krc] Hk].
    apply Forall_cons_1 in Hk as [[rt Krt] Hk].
    apply Forall_cons_1 in Hk as [[se Kse] Hk].
    apply Forall_cons_1 in Hk as [[er Ker] _].
    by exists ty, ur, rc, rt, se, er.
  - intros (ty & ur & rc & rt & se & er & K1 & K2 & K3 & K4 & K5 & K6).
    repeat (constructor; [by eexists |]). constructor.
Qed.


Lemma identification_keeps t c w known w1 :
  (if negb (py_truthy (opt_str c)) then extract_customer_id t else ret c) w
  = (Returns known, w1) ->
  llm w1 = llm w /\ tickets w1 = tickets w /\ faults w1 = faults w
  /\ next_ticket_id w1 = next_ticket_id w.
Proof.
  destruct (negb _).
  - rewrite extract_customer_id_spec. by intros [= _ <-].
  - by intros [= _ <-].
Qed.

Lemma classified_after_identification t c w known w1 :
  (if negb (py_truthy (opt_str c)) then extract_customer_id t else ret c) w
  = (Returns known, w1) ->
  classified w1 t = classified w t.
Proof.
  intros Hid. apply identification_keeps in Hid as (Hllm & _).
  unfold classified. by rewrite Hllm.
Qed.

(** X6. An answer that is JSON but no object is not recovered from: when
    the classifier's answer, unfenced, denotes a list, a string, a number,
    a truth value or null, [analyze_ticket] raises [TypeError] (the
    assignment of [ticket_id] fails) after an insert that was rolled back,
    [tickets] is unchanged, and [process_support_ticket] raises the same
    error for every customer id. *)
Theorem analyze_ticket_raises_on_a_non_object ticket_content w :
  (forall d, classified w ticket_content <> PyDict d) ->
  exists msg,
    (forall customer_id, exists w',
       analyze_ticket ticket_content customer_id w = (Raises (TypeError msg), w')
       /\ tickets w' = tickets w)
    /\ (forall customer_id, exists w',
          process_support_ticket ticket_content customer_id w
          = (Raises (TypeError msg), w')
          /\ tickets w' = tickets w).
Proof.
  intros Hv.
  assert (Hset : exists msg, forall tid,
            py_setitem (classified w ticket_content) (u "ticket_id") tid
            = Raises (TypeError msg)).
  { destruct (classified w ticket_content) as [| | | | | | d |]; try by eexists.
    by destruct (Hv d). }
  destruct Hset as [msg Hset]. exists msg.
  assert (Hana : forall customer_id w0,
            llm w0 = llm w ->
            exists w',
              analyze_ticket ticket_content customer_id w0 = (Raises (TypeError msg), w')
              /\ tickets w' = tickets w0).
  { intros customer_id w0 Hllm.
    assert (Hc : classified w0 ticket_content = classified w ticket_content)
      by (unfold classified; by rewrite Hllm).
    destruct (analyze_ticket_steps ticket_content customer_id w0) as (tid & w' & E & ->).
    rewrite Hc in E |- *.
    exists w'. unfold lift. rewrite Hset. split; [done |].
    edestruct save_ticket_outcome as (r & w'' & E' & Hcases).
    rewrite E in E'. injection E' as <- <-.
    destruct Hcases as [[_ Ht] | (d & ? & ? & ? & ? & ? & ? & Hd & _)]; [exact Ht |].
    by destruct (Hv d). }
  split.
  - intros customer_id. by apply Hana.
  - intros customer_id. unfold process_support_ticket.
    destruct (identification_returns ticket_content customer_id w)
      as (known & w1 & S1 & Hllm & _).
    erewrite bind_returns by exact S1.
    destruct (Hana known w1 Hllm) as (w2 & E & Ht).
    exists w2. unfold bind at 1. rewrite E. split; [done |].
    apply identification_keeps in S1 as (_ & Ht1 & _). by rewrite Ht, Ht1.
Qed.

End Classification.

(** ** Fenced answers *)

Lemma lstrip_spaces ws s : forallb py_isspace ws = true -> lstrip (ws ++ s) = lstrip s.
Proof.
  induction ws as [| c ws IH]; [done |].
  simpl. intros [-> Hws]%andb_true_iff. by apply IH.
Qed.

Lemma rstrip_spaces s ws : forallb py_isspace ws = true -> rstrip (s ++ ws) = rstrip s.
Proof.
  intros Hws. unfold rstrip. rewrite rev_app_distr, lstrip_spaces; [done |].
  apply forallb_forall. intros c Hc%in_rev.
  by apply (proj1 (forallb_forall _ _) Hws).
Qed.

Lemma rstrip_last s c : py_isspace c = false -> rstrip (s ++ [c]) = s ++ [c].
Proof.
  intros Hc. unfold rstrip. rewrite rev_app_distr. simpl. rewrite Hc.
  change (c :: rev s) with (rev [c] ++ rev s).
  by rewrite <- rev_app_distr, rev_involutive.
Qed.

(** X7. A fenced answer is unwrapped: for every text between an opening
    fence with the json tag and a closing fence, with white space before
    and after the fences, [unfence] yields the text between the fences,
    stripped. *)
Theorem unfence_removes_the_fence before body after :
  forallb py_isspace before = true ->
  forallb py_isspace after = true ->
  unfence (before ++ u "```json" ++ body ++ u "```" ++ after) = strip body.
Proof.
  intros Hb Ha.
  assert (Hs : strip (before ++ u "```json" ++ body ++ u "```" ++ after)
               = u "```json" ++ body ++ u "```").
  { unfold strip. rewrite lstrip_spaces by exact Hb.
    change (lstrip (u "```json" ++ body ++ u "```" ++ after))
      with (u "```json" ++ body ++ u "```" ++ after).
    replace (u "```json" ++ body ++ u "```" ++ after)
      with (((u "```json" ++ body ++ u "``") ++ [96%N]) ++ after)
      by (by rewrite <- !app_assoc).
    rewrite rstrip_spaces by exact Ha.
    rewrite rstrip_last by done. by rewrite <- !app_assoc. }
  unfold unfence. rewrite Hs, startswith_app. f_equal.
  unfold py_slice, slice_bound. rewrite !length_app.
  change (length (u "```json")) with 7%nat. change (length (u "```")) with 3%nat.
  replace (7 <? 0)%Z with false by done. replace (-3 <? 0)%Z with true by done.
  rewrite Z.min_l, Z.max_r by lia.
  change (drop (Z.to_nat 7) (u "```json" ++ body ++ u "```")) with (body ++ u "```").
  replace (Z.to_nat _) with (length body) by lia.
  by rewrite take_app_length.
Qed.

(** ** The routing procedure on every classification *)

Section Fields.

Context `{PyRuntime}.

Ltac run_step H a w E :=
  unfold bind at 1 in H;
  match type of H with
  | (match ?m with (_, _) => _ end) = _ =>
      destruct m as [[a | ?] w] eqn:E; [| discriminate H]
  end.

(** The lookup, the solver and the composer leave the tickets alone. *)
Lemma query_customer_info_keeps_tickets c s w r w' :
  query_customer_info c s w = (r, w') -> tickets w' = tickets w.
Proof.
  intros E.
  pose proof (query_customer_info_preserves (fun w0 => tickets w0 = tickets w)
                ltac:(done) ltac:(done) ltac:(done) c s w eq_refl) as Hk.
  by rewrite E in Hk.
Qed.

Lemma solve_technical_issue_keeps t ci w r w' :
  solve_technical_issue t ci w = (r, w') ->
  tickets w' = tickets w /\ faults w' = faults w /\ llm w' = llm w.
Proof.
  intros E.
  pose proof (solve_technical_issue_preserves
                (fun w0 => tickets w0 = tickets w /\ faults w0 = faults w /\ llm w0 = llm w)
                ltac:(done) t ci w ltac:(done)) as Hk.
  by rewrite E in Hk.
Qed.

Lemma compose_reply_keeps a ci ts t w r w' :
  compose_reply a ci ts t w = (r, w') ->
  tickets w' = tickets w /\ faults w' = faults w /\ llm w' = llm w.
Proof.
  intros E.
  pose proof (compose_reply_preserves
                (fun w0 => tickets w0 = tickets w /\ faults w0 = faults w /\ llm w0 = llm w)
                ltac:(done) a ci ts t w ltac:(done)) as Hk.
  by rewrite E in Hk.
Qed.

Lemma missing_field_none (d : gmap (list N) pyval) :
  missing_field d = None <-> Forall (fun k => is_Some (d !! k)) classification_fields.
Proof.
  unfold missing_field. split.
  - intros Hn. apply Forall_forall. intros k Hk.
    pose proof (find_none _ _ Hn k Hk) as Hb. simpl in Hb.
    apply negb_false_iff in Hb. by apply bool_decide_eq_true in Hb.
  - intros Hk. destruct (find _ _) as [k |] eqn:E; [| done].
    apply find_some in E as [Hin Hb].
    pose proof (proj1 (Forall_forall _ _) Hk k Hin) as Hs.
    apply negb_true_iff, bool_decide_eq_false in Hb. done.
Qed.

Lemma missing_field_some (d : gmap (list N) pyval) k :
  missing_field d = Some k -> d !! k = None.
Proof.
  unfold missing_field. intros [_ Hb]%find_some.
  apply negb_true_iff, bool_decide_eq_false in Hb.
  destruct (d !! k); [by destruct Hb | done].
Qed.

(** The first missing field, read off the lookups. *)
Lemma missing_field_cases (d : gmap (list N) pyval) :
  missing_field d =
    match d !! u "ticket_type", d !! u "urgency", d !! u "requires_customer_data",
          d !! u "requires_technical_help", d !! u "customer_sentiment",
          d !! u "estimated_resolution_time" with
    | None, _, _, _, _, _ => Some (u "ticket_type")
    | _, None, _, _, _, _ => Some (u "urgency")
    | _, _, None, _, _, _ => Some (u "requires_customer_data")
    | _, _, _, None, _, _ => Some (u "requires_technical_help")
    | _, _, _, _, None, _ => Some (u "customer_sentiment")
    | _, _, _, _, _, None => Some (u "estimated_resolution_time")
    | _, _, _, _, _, _ => None
    end.
Proof.
  unfold missing_field, classification_fields. cbn [find].
  destruct (d !! u "ticket_type"); [| done].
  destruct (d !! u "urgency"); [| done].
  destruct (d !! u "requires_customer_data"); [| done].
  destruct (d !! u "requires_technical_help"); [| done].
  destruct (d !! u "customer_sentiment"); [| done].
  by destruct (d !! u "estimated_resolution_time").
Qed.


End Fields.

(** ** Whole runs *)

Section Runs.

Context `{PyRuntime}.

(** Stability of the invariants used below under the steps of the code. *)
Lemma save_ticket_succeeds (d : gmap (list N) pyval) c t w ty ur rc rt se er :
  d !! u "ticket_type" = Some ty ->
  d !! u "urgency" = Some ur ->
  d !! u "requires_customer_data" = Some rc ->
  d !! u "requires_technical_help" = Some rt ->
  d !! u "customer_sentiment" = Some se ->
  d !! u "estimated_resolution_time" = Some er ->
  next_fault w = None ->
  exists w',
    _save_ticket_to_db (PyDict d) c t w = (Returns (PyInt (next_ticket_id w)), w')
    /\ tickets w' = <[next_ticket_id w := TicketRow c ty ur rc rt se er t None]> (tickets w).
Proof.
  intros K1 K2 K3 K4 K5 K6 Hf.
  destruct (save_ticket_outcome (PyDict d) c t w) as (r & w' & E & Hcases).
  destruct (save_ticket_spec (PyDict d) c t w ty ur rc rt se er) as (w2 & E2 & _);
    try (cbn [py_getitem]; by rewrite ?K1, ?K2, ?K3, ?K4, ?K5, ?K6).
  unfold saved_ticket_id in E2. rewrite Hf in E2.
  assert (r = PyInt (next_ticket_id w)) as -> by congruence.
  exists w'. split; [exact E |].
  destruct Hcases as [[? _] | (d0 & ty' & ur' & rc' & rt' & se' & er' & [= <-] & K1' & K2'
                                 & K3' & K4' & K5' & K6' & _ & _ & Ht & _)]; [done |].
  rewrite Ht. repeat f_equal; congruence.
Qed.

Lemma healthy_store_is_stable :
  (forall (e : event) w, faults w = [] -> faults (add_event e w) = [])
  /\ (forall f fs w, faults w = f :: fs -> faults w = [] -> faults (set_faults fs w) = [])
  /\ (forall p w, faults w = [] -> faults (set_pending p w) = [])
  /\ (forall w, faults w = [] -> faults (set_next_ticket_id (next_ticket_id w + 1) w) = [])
  /\ (forall p w, pending w = Some p -> faults w = [] ->
        faults (set_tickets (apply_write p (tickets w)) w) = []).
Proof. repeat split; try done. intros f fs w E1 E2. by rewrite E1 in E2. Qed.

Lemma healthy_after_save a c t w r w' :
  _save_ticket_to_db a c t w = (r, w') -> faults w = [] -> faults w' = [].
Proof.
  intros E Hf. destruct healthy_store_is_stable as (S1 & S2 & S3 & S4 & S5).
  pose proof (_save_ticket_to_db_preserves (fun w0 => faults w0 = [])
                S1 S2 S3 S4 S5 a c t w Hf) as Hk.
  by rewrite E in Hk.
Qed.

Lemma healthy_after_lookup c s w r w' :
  query_customer_info c s w = (r, w') -> faults w = [] -> faults w' = [].
Proof.
  intros E Hf. destruct healthy_store_is_stable as (S1 & S2 & S3 & _).
  pose proof (query_customer_info_preserves (fun w0 => faults w0 = [])
                S1 S2 S3 c s w Hf) as Hk.
  by rewrite E in Hk.
Qed.

Lemma llm_after_analysis t c w r w' :
  analyze_ticket t c w = (r, w') -> llm w' = llm w.
Proof.
  intros E.
  pose proof (analyze_ticket_preserves (fun w0 => llm w0 = llm w)
                ltac:(done) ltac:(done) ltac:(done) ltac:(done) ltac:(done)
                t c w eq_refl) as Hk.
  by rewrite E in Hk.
Qed.

Lemma llm_after_lookup c s w r w' :
  query_customer_info c s w = (r, w') -> llm w' = llm w.
Proof.
  intros E.
  pose proof (query_customer_info_preserves (fun w0 => llm w0 = llm w)
                ltac:(done) ltac:(done) ltac:(done) c s w eq_refl) as Hk.
  by rewrite E in Hk.
Qed.



End Runs.

(** ** The agents of the completion service *)

Section LlmAgents.

Context `{PyRuntime}.

Lemma requests_app t1 t2 : requests (t1 ++ t2) = requests t1 ++ requests t2.
Proof. apply omap_app. Qed.

Lemma asked sp up c w :
  store_untouched w (add_event (LlmRequest sp up) (add_event (Call c) w))
  /\ requests (trace (add_event (LlmRequest sp up) (add_event (Call c) w)))
     = requests (trace w) ++ [(sp, up)].
Proof.
  unfold store_untouched. cbv [add_event trace customer_support tickets next_ticket_id
    faults pending].
  rewrite !store_calls_app, !requests_app. simpl. by rewrite !app_nil_r.
Qed.


(** X17. [call_openai] turns a failure of the client into text, and the
    text is taken for nothing else downstream: when the request raises
    with the message [e], [call_openai] returns (it never raises) the string
    "An error occurred: " followed by [e], after exactly one request; that
    string is no JSON text for the classifier, and it does not pass the
    extractor's check for the CUST prefix. *)
Theorem call_openai_failure_is_text system_prompt user_prompt w e :
  llm w system_prompt user_prompt = LlmRaises e ->
  call_openai system_prompt user_prompt w
  = (Returns (Some (u "An error occurred: " ++ e)),
     add_event (LlmRequest system_prompt user_prompt) w)
  /\ json_parse (unfence (u "An error occurred: " ++ e)) = None
  /\ validated (LlmReturns (Some (u "An error occurred: " ++ e))) = None.
Proof.
  intros Hl. repeat split.
  - cbv [call_openai try_except chat_completions_create]. by rewrite Hl.
  - apply error_string_not_json.
  - cbn [validated].
    change (u "An error occurred: " ++ e) with (65%N :: (u "n error occurred: " ++ e)).
    destruct (strip_head 65%N (u "n error occurred: " ++ e) eq_refl) as [s' ->].
    by rewrite orb_true_r.
Qed.

(** *** What the composer is told about the customer *)

Lemma call_openai_answer sp up w1 w2 :
  llm w1 = llm w2 -> (call_openai sp up w1).1 = (call_openai sp up w2).1.
Proof.
  intros Hl. cbv [call_openai try_except chat_completions_create]. rewrite Hl.
  by destruct (llm w2 sp up).
Qed.

Lemma context_line_absent (label key : list N) (d : gmap (list N) pyval) :
  d !! key = None -> context_line label key (Some d) = [].
Proof. intros Hk. unfold context_line. rewrite Hk. by destruct (py_truthy _). Qed.

Lemma error_objects_of_the_lookup w c s :
  is_Some (lookup_answer w c s !! u "error") ->
  exists msg, lookup_answer w c s = {[ u "error" := msg ]}.
Proof.
  unfold lookup_answer, invalid_format_error, connection_error, query_error,
    not_found_error, customer_record.
  intros Herr.
  destruct c as [id |]; [| by eexists].
  destruct (well_formed_id (Some id)); [| by eexists].
  destruct (next_fault w) as [[e | e | e] |]; try by eexists.
  all: destruct (customer_support w !! id) as [r |]; [| by eexists].
  all: exfalso; repeat case_bool_decide; by destruct Herr as [? [=]].
Qed.

(** X12. A lookup that failed tells the composer nothing: when the
    customer info is an error object of [query_customer_info], the requests
    that [compose_reply] sends and the reply it returns are those of a run
    without customer info. *)
Theorem composer_ignores_a_lookup_error ticket_analysis technical_solution
    ticket_content w w0 customer_id query_type :
  is_Some (lookup_answer w0 customer_id query_type !! u "error") ->
  (compose_reply ticket_analysis (Some (lookup_answer w0 customer_id query_type))
     technical_solution ticket_content w).1
  = (compose_reply ticket_analysis None technical_solution ticket_content w).1
  /\ requests (trace (compose_reply ticket_analysis
                        (Some (lookup_answer w0 customer_id query_type))
                        technical_solution ticket_content w).2)
     = requests (trace (compose_reply ticket_analysis None technical_solution
                          ticket_content w).2).
Proof.
  intros Herr.
  destruct (error_objects_of_the_lookup _ _ _ Herr) as [msg ->].
  unfold compose_reply. do 2 (erewrite bind_returns by reflexivity). cbv zeta.
  rewrite !context_line_absent by done. cbn [context_line].
  split; [by apply call_openai_answer |].
  do 2 edestruct call_openai_returns as [? ->].
  cbv [add_event trace snd]. by rewrite !requests_app.
Qed.

End LlmAgents.

(** ** The lookup and the store *)

Section LookupSessions.

Context `{PyRuntime}.

Lemma get_connection_cases w :
  _get_connection w =
    match faults w with
    | [] => (Returns (Some (Conn None)), add_event DbConnect w)
    | Some (ConnectFails e) :: fs =>
        (Returns None,
         add_event (Print (LogConnectionError (Error e)))
           (set_faults fs (add_event DbConnect w)))
    | f :: fs => (Returns (Some (Conn f)), set_faults fs (add_event DbConnect w))
    end.
Proof.
  unfold _get_connection, try_except, bind, psycopg2_connect, print, emit, ret.
  by destruct (faults w) as [| [[e | e | e] |] fs].
Qed.

Lemma select_is_executed c (s id : list N) :
  (if bool_decide (s = u "billing") then cursor_execute c (SelectBilling id)
   else if bool_decide (s = u "history") then cursor_execute c (SelectHistory id)
   else cursor_execute c (SelectFull id))
  = cursor_execute c (select_statement s id).
Proof. unfold select_statement. by repeat case_bool_decide. Qed.

Lemma select_outcome c (s id : list N) w :
  exists r,
    cursor_execute c (select_statement s id) w
    = (r, add_event (DbExecute (select_statement s id)) w).
Proof.
  unfold cursor_execute, select_statement.
  destruct (session_fault c) as [[e | e | e] |]; repeat case_bool_decide; by eexists.
Qed.

(** What the lookup does with the row makes no call to the store. *)
Lemma surfacing_is_silent (id : list N) (result : option (gmap (list N) pyval)) :
  only_emits (fun e => store_call e = None)
    (try_except
       (match result with
        | Some row =>
            let customer_data := row in
            customer_data <- date_to_string (u "join_date") customer_data ;;
            customer_data <- date_to_string (u "last_payment") customer_data ;;
            ret (history_to_list customer_data)
        | None =>
            ret {[ u "error" := PyStr (u "Customer " ++ id ++ u " not found in database") ]}
        end)
       (fun e =>
          print (LogQueryError e) ;;
          ret {[ u "error" := PyStr (u "Database query failed: " ++ exn_str e) ]})).
Proof. unfold date_to_string, print. emits. Qed.

Lemma failure_is_silent (e : exn) :
  only_emits (fun e => store_call e = None)
    (print (LogQueryError e) ;;
     ret ({[ u "error" := PyStr (u "Database query failed: " ++ exn_str e) ]}
          : gmap (list N) pyval)).
Proof. unfold print. emits. Qed.

(** One session of the lookup: the statement, then the closing. *)
Lemma lookup_session c (s id : list N) w :
  store_calls
    (trace
       (try_finally
          (try_except
             (result <-
                (if bool_decide (s = u "billing") then
                   cursor_execute c (SelectBilling id)
                 else if bool_decide (s = u "history") then
                   cursor_execute c (SelectHistory id)
                 else
                   cursor_execute c (SelectFull id)) ;;
              match result with
              | Some row =>
                  let customer_data := row in
                  customer_data <- date_to_string (u "join_date") customer_data ;;
                  customer_data <- date_to_string (u "last_payment") customer_data ;;
                  ret (history_to_list customer_data)
              | None =>
                  ret {[ u "error" := PyStr (u "Customer " ++ id
                                             ++ u " not found in database") ]}
              end)
             (fun e =>
                print (LogQueryError e) ;;
                ret {[ u "error" := PyStr (u "Database query failed: " ++ exn_str e) ]}))
          (conn_close c) w).2)
  = store_calls (trace w) ++ [DbExecute (select_statement s id); DbClose].
Proof.
  rewrite select_is_executed. unfold try_finally.
  match goal with
  | |- context [try_except ?body ?handler w] =>
      assert (Hb : store_calls (trace (try_except body handler w).2)
                   = store_calls (trace w) ++ [DbExecute (select_statement s id)])
  end.
  { destruct (select_outcome c s id w) as [r E].
    unfold try_except at 1, bind at 1. rewrite E.
    destruct r as [result | e].
    - pose proof (only_emits_omap store_call _
                    (add_event (DbExecute (select_statement s id)) w)
                    (surfacing_is_silent id result)) as Hs.
      unfold try_except in Hs. fold store_calls in Hs.
      etransitivity; [exact Hs |].
      cbv [add_event trace]. by rewrite store_calls_app.
    - pose proof (only_emits_omap store_call _
                    (add_event (DbExecute (select_statement s id)) w)
                    (failure_is_silent e)) as Hs.
      fold store_calls in Hs.
      etransitivity; [exact Hs |].
      cbv [add_event trace]. by rewrite store_calls_app. }
  destruct (try_except _ _ w) as [r w3]. simpl in *.
  by rewrite store_calls_app, Hb, <- app_assoc.
Qed.

(** What a lookup sends to the store. *)
Lemma lookup_store_calls c s w :
  store_calls (trace (query_customer_info c s w).2)
  = store_calls (trace w)
    ++ match c with
       | Some id =>
           if well_formed_id c
           then read_attempt (next_fault w) (select_statement s id)
           else []
       | None => []
       end.
Proof.
  assert (Hnone : forall (d : gmap (list N) pyval) (w1 : world),
            store_calls (trace w1) = store_calls (trace w) ->
            store_calls (trace (ret d w1).2) = store_calls (trace w) ++ [])
    by (intros d w1 Hw1; by rewrite app_nil_r).
  unfold query_customer_info. do 2 (erewrite bind_returns by reflexivity).
  set (w1 := add_event _ (add_event _ w)).
  assert (Hw1 : store_calls (trace w1) = store_calls (trace w)).
  { unfold w1. cbv [add_event trace]. rewrite !store_calls_app. simpl.
    by rewrite !app_nil_r. }
  destruct c as [id |]; [| by apply Hnone].
  unfold well_formed_id.
  destruct (py_truthy (PyStr id)); [| by apply Hnone].
  destruct (startswith id (u "CUST")); [| by apply Hnone].
  cbn [negb orb andb].
  unfold bind at 1. rewrite get_connection_cases.
  unfold next_fault. change (faults w1) with (faults w).
  destruct (faults w) as [| [[e | e | e] |] fs]; cbn [read_attempt].
  - rewrite lookup_session. cbv [add_event trace]. fold (trace w1).
    by rewrite store_calls_app, Hw1, <- app_assoc.
  - cbv [ret add_event set_faults trace snd]. fold (trace w1).
    rewrite !store_calls_app, Hw1. simpl. by rewrite app_nil_r.
  - rewrite lookup_session. cbv [add_event set_faults trace]. fold (trace w1).
    by rewrite store_calls_app, Hw1, <- app_assoc.
  - rewrite lookup_session. cbv [add_event set_faults trace]. fold (trace w1).
    by rewrite store_calls_app, Hw1, <- app_assoc.
  - rewrite lookup_session. cbv [add_event set_faults trace]. fold (trace w1).
    by rewrite store_calls_app, Hw1, <- app_assoc.
Qed.

(** X13. The lookup only reads: for every customer id and scope,
    [query_customer_info] leaves [tickets] and the serial as they were; an
    id that fails the format check never reaches the store; a well-formed
    id costs one session, in which the statement of the scope is sent and
    nothing is committed or rolled back. *)
Theorem lookup_only_reads customer_id query_type w :
  tickets (query_customer_info customer_id query_type w).2 = tickets w
  /\ next_ticket_id (query_customer_info customer_id query_type w).2 = next_ticket_id w
  /\ customer_support (query_customer_info customer_id query_type w).2
     = customer_support w
  /\ store_calls (trace (query_customer_info customer_id query_type w).2)
     = store_calls (trace w)
       ++ match customer_id with
          | Some id =>
              if well_formed_id customer_id
              then read_attempt (next_fault w) (select_statement query_type id)
              else []
          | None => []
          end.
Proof.
  repeat split.
  - by apply (query_customer_info_preserves (fun w0 => tickets w0 = tickets w)).
  - by apply (query_customer_info_preserves
                (fun w0 => next_ticket_id w0 = next_ticket_id w)).
  - by apply (query_customer_info_preserves
                (fun w0 => customer_support w0 = customer_support w)).
  - apply lookup_store_calls.
Qed.

(** X14. A scope that is neither billing nor history is the full scope:
    [query_customer_info] answers any other [query_type] as it answers
    "full". *)
Theorem unknown_scope_is_the_full_scope customer_id query_type w :
  query_type <> u "billing" ->
  query_type <> u "history" ->
  (query_customer_info customer_id query_type w).1
  = (query_customer_info customer_id (u "full") w).1.
Proof.
  intros Hb Hh.
  destruct (query_customer_info_spec customer_id query_type w) as [w1 ->].
  destruct (query_customer_info_spec customer_id (u "full") w) as [w2 ->].
  cbn [fst]. f_equal. unfold lookup_answer, customer_record.
  by repeat case_bool_decide.
Qed.

End LookupSessions.

(** ** Identifiers *)

Lemma lstrip_idem s : lstrip (lstrip s) = lstrip s.
Proof.
  induction s as [| c s IH]; [done |].
  simpl. destruct (py_isspace c) eqn:E; [exact IH |]. simpl. by rewrite E.
Qed.

Lemma lstrip_head s : match lstrip s with c :: _ => py_isspace c = false | [] => True end.
Proof.
  induction s as [| c s IH]; [done |].
  simpl. destruct (py_isspace c) eqn:E; [exact IH | exact E].
Qed.

Lemma strip_idem s : strip (strip s) = strip s.
Proof.
  unfold strip at 2 3.
  pose proof (lstrip_head s) as Hh.
  destruct (lstrip s) as [| c x]; [done |].
  destruct (strip_head c x Hh) as [s' Hs].
  assert (Hr : rstrip (c :: x) = c :: s').
  { unfold strip in Hs. simpl in Hs. by rewrite Hh in Hs. }
  rewrite Hr. unfold strip. simpl. rewrite Hh. rewrite <- Hr.
  unfold rstrip. by rewrite rev_involutive, lstrip_idem.
Qed.

Section Identifiers.

Context `{PyRuntime}.

(** X15. What the extractor returns passes the lookup's format check: an
    identifier returned by [extract_customer_id] is not empty, starts with
    CUST, is not the sentinel NONE and has no white space around it; a
    lookup under it is never turned down for its format but goes to the
    store. *)
Theorem extracted_identifier_is_well_formed ticket_content w id w' :
  extract_customer_id ticket_content w = (Returns (Some id), w') ->
  well_formed_id (Some id) = true
  /\ id <> u "NONE"
  /\ strip id = id
  /\ forall query_type w0,
       store_calls (trace (query_customer_info (Some id) query_type w0).2)
       = store_calls (trace w0)
         ++ read_attempt (next_fault w0) (select_statement query_type id).
Proof.
  rewrite extract_customer_id_spec. intros [= Hv _].
  destruct (llm w _ _) as [e | [answer |]]; try discriminate Hv.
  cbn [validated] in Hv.
  destruct (bool_decide (strip answer = u "NONE")) eqn:Hnone; [discriminate Hv |].
  destruct (startswith (strip answer) (u "CUST")) eqn:Hcust; [| discriminate Hv].
  injection Hv as <-.
  assert (Hwf : well_formed_id (Some (strip answer)) = true).
  { unfold well_formed_id. rewrite Hcust. by destruct (strip answer). }
  repeat split.
  - exact Hwf.
  - by apply bool_decide_eq_false in Hnone.
  - apply strip_idem.
  - intros s w0. rewrite lookup_store_calls. by rewrite Hwf.
Qed.

(** X16. A malformed customer id from the caller is used as it is: when
    the caller hands over a non-empty id that does not start with CUST
    and the classification asks for customer data, a run that returns has
    classified (and stored) the ticket under that id, has called the
    lookup with it, carries the lookup's format error as customer info,
    and lists DatabaseAgent among the agents used. *)
Theorem malformed_caller_id_is_passed_on ticket_content id w res w' :
  id <> [] ->
  startswith id (u "CUST") = false ->
  process_support_ticket ticket_content (Some id) w = (Returns res, w') ->
  py_truthy (py_get (analysis res) (u "requires_customer_data") PyNone) = true ->
  classifications (trace w') = classifications (trace w) ++ [(ticket_content, Some id)]
  /\ (exists scope, lookups (trace w') = lookups (trace w) ++ [(Some id, scope)])
  /\ customer_info res = Some (invalid_format_error (Some id))
  /\ u "DatabaseAgent" ∈ agents_used res.
Proof.
  intros Hne Hcust Hrun Hrc.
  assert (Htruthy : py_truthy (opt_str (Some id)) = true) by (by destruct id).
  destruct (returning_run_calls _ _ _ _ _ Hrun) as (known' & Hk' & _ & Hcalls & _).
  rewrite (Hk' Htruthy) in Hcalls.
  destruct (process_support_ticket_returns _ _ _ _ _ Hrun)
    as (known & w1 & w2 & w3 & w4 & w5 & ty & ur & rc & rt & se & er
        & S1 & S2 & K1 & K2 & K3 & K4 & K5 & K6 & S3 & S4 & S5 & S6 & Hagents).
  pose proof (known_identifier _ _ _ _ _ S1) as [Hknown _].
  rewrite (Hknown Htruthy) in S3.
  pose proof Hrc as Hrc0.
  unfold py_get in Hrc. rewrite K3 in Hrc. rewrite Hrc, Htruthy in S3.
  cbn [andb] in S3. cbv zeta in S3. destruct S3 as (info & S3 & Hinfo).
  destruct (query_customer_info_spec (Some id) (scope_for ty) w2) as [w3' E3].
  assert (Hans : forall s, lookup_answer w2 (Some id) s = invalid_format_error (Some id)).
  { intros s. unfold lookup_answer, well_formed_id. rewrite Hcust.
    by rewrite andb_false_r. }
  assert (Hi : info = invalid_format_error (Some id)).
  { rewrite <- (Hans (scope_for ty)). unfold scope_for in *. congruence. }
  subst info.
  repeat split.
  - unfold classifications. by rewrite Hcalls, omap_app, classifications_of_run.
  - unfold lookups. rewrite Hcalls, omap_app, lookups_of_run.
    rewrite Hrc0, Htruthy. by eexists.
  - exact Hinfo.
  - rewrite Hagents, Hinfo. cbn [opt_dict].
    rewrite <- (Hans (u "full")), lookup_answer_truthy.
    apply elem_of_app. right. apply elem_of_app. left. apply list_elem_of_here.
Qed.

End Identifiers.

(** ** More sample runs *)

Lemma an_open_connection_is_refused :
  store_protocol (false, []) [DbConnect; DbExecute (SelectFull []); DbClose]
  = Some (false, [])
  /\ store_protocol (false, []) [DbConnect; DbExecute (SelectFull [])] = Some (true, [])
  /\ store_protocol (false, []) [DbConnect; DbConnect] = None
  /\ store_protocol (false, []) [DbExecute (SelectFull [])] = None
  /\ store_protocol (false, [Some (ConnectFails [])]) [DbConnect; DbClose] = None.
Proof. by repeat split. Qed.

Lemma unfence_removes_the_fence_witness :
  forallb py_isspace [10%N] = true
  /\ forallb py_isspace [32%N; 10%N] = true
  /\ unfence fenced_answer = u "{}".
Proof.
  split; [reflexivity |]. split; [reflexivity |].
  unfold fenced_answer.
  rewrite (unfence_removes_the_fence [10%N] ([10%N] ++ u "{}" ++ [10%N]) [32%N; 10%N]);
    reflexivity.
Defined.

Section MoreSamples.

#[local] Existing Instance sample_runtime.

Lemma stored_ticket_gets_the_reply_witness :
  exists w1,
    _save_ticket_to_db (PyDict billing_classification) (Some (u "CUST001"))
      billing_ticket outage_world = (Returns (PyInt 1), w1)
    /\ next_fault w1 = None
    /\ exists row w2,
         update_ticket_recommendation (PyInt 1) (Some (u "Guten Tag")) w1
         = (Returns tt, w2)
         /\ tickets w1 !! 1%Z = Some row
         /\ t_customer_id row = Some (u "CUST001")
         /\ t_incoming_content row = billing_ticket
         /\ t_recommended_answer row = None
         /\ tickets w2 !! 1%Z = Some (set_recommended_answer (Some (u "Guten Tag")) row)
         /\ forall j, j <> 1%Z -> tickets w2 !! j = tickets outage_world !! j.
Proof.
  set (r := _save_ticket_to_db (PyDict billing_classification) (Some (u "CUST001"))
              billing_ticket outage_world).
  assert (E : r = (Returns (PyInt 1), r.2)) by (vm_compute; reflexivity).
  assert (Hf : next_fault r.2 = None) by (vm_compute; reflexivity).
  exists r.2. split; [exact E |]. split; [exact Hf |].
  exact (stored_ticket_gets_the_reply (PyDict billing_classification)
           (Some (u "CUST001")) billing_ticket (Some (u "Guten Tag")) outage_world 1 r.2
           E ltac:(done) Hf).
Defined.

Lemma update_of_a_missing_ticket_reports_success_witness :
  next_fault outage_world = None
  /\ tickets outage_world !! unknown_ticket_id = None
  /\ exists w',
       update_ticket_recommendation (PyInt unknown_ticket_id) (Some (u "Guten Tag"))
         outage_world = (Returns tt, w')
       /\ tickets w' = tickets outage_world
       /\ store_calls (trace w') =
            store_calls (trace outage_world)
            ++ [DbConnect;
                DbExecute (UpdateRecommendedAnswer (Some (u "Guten Tag"))
                             (PyInt unknown_ticket_id));
                DbCommit; DbClose]
       /\ printed (trace w') =
            printed (trace outage_world)
            ++ [LogUpdatingTicket (PyInt unknown_ticket_id);
                LogTicketUpdated (PyInt unknown_ticket_id)].
Proof.
  split; [reflexivity |]. split; [reflexivity |].
  exact (update_of_a_missing_ticket_reports_success unknown_ticket_id
           (Some (u "Guten Tag")) outage_world ltac:(done) eq_refl eq_refl).
Defined.




Lemma call_openai_failure_is_text_witness :
  llm outage_world analyze_ticket_system_prompt (analyze_ticket_user_prompt billing_ticket)
  = LlmRaises (u "Connection error.")
  /\ (call_openai analyze_ticket_system_prompt (analyze_ticket_user_prompt billing_ticket)
        outage_world).1
     = Returns (Some (u "An error occurred: " ++ u "Connection error."))
  /\ json_parse (unfence (u "An error occurred: " ++ u "Connection error.")) = None.
Proof.
  split; [reflexivity |].
  destruct (call_openai_failure_is_text analyze_ticket_system_prompt
              (analyze_ticket_user_prompt billing_ticket) outage_world
              (u "Connection error.") eq_refl) as (Hrun & Hjson & _).
  split; [by rewrite Hrun | exact Hjson].
Defined.

Lemma composer_ignores_a_lookup_error_witness :
  is_Some (lookup_answer scenario_a (Some (u "CUST999")) (u "full") !! u "error")
  /\ (compose_reply billing_classification
        (Some (lookup_answer scenario_a (Some (u "CUST999")) (u "full")))
        None billing_ticket scenario_a).1
     = (compose_reply billing_classification None None billing_ticket scenario_a).1.
Proof.
  assert (He : is_Some (lookup_answer scenario_a (Some (u "CUST999")) (u "full")
                        !! u "error"))
    by (vm_compute; by eexists).
  split; [exact He |].
  exact (proj1 (composer_ignores_a_lookup_error billing_classification None billing_ticket
                  scenario_a scenario_a (Some (u "CUST999")) (u "full") He)).
Defined.

Lemma unknown_scope_is_the_full_scope_witness :
  u "everything" <> u "billing"
  /\ u "everything" <> u "history"
  /\ (query_customer_info (Some (u "CUST001")) (u "everything") scenario_a).1
     = (query_customer_info (Some (u "CUST001")) (u "full") scenario_a).1.
Proof.
  assert (H1 : u "everything" <> u "billing") by (intros Hx; vm_compute in Hx; by inversion Hx).
  assert (H2 : u "everything" <> u "history") by (intros Hx; vm_compute in Hx; by inversion Hx).
  split; [exact H1 |]. split; [exact H2 |].
  exact (unknown_scope_is_the_full_scope (Some (u "CUST001")) (u "everything")
           scenario_a H1 H2).
Defined.

Lemma extracted_identifier_is_well_formed_witness :
  exists w',
    extract_customer_id billing_ticket scenario_a = (Returns (Some (u "CUST001")), w')
    /\ well_formed_id (Some (u "CUST001")) = true
    /\ strip (u "CUST001") = u "CUST001"
    /\ store_calls (trace (query_customer_info (Some (u "CUST001")) (u "billing")
                             scenario_a).2)
       = [DbConnect; DbExecute (SelectBilling (u "CUST001")); DbClose].
Proof.
  set (r := extract_customer_id billing_ticket scenario_a).
  assert (E : r = (Returns (Some (u "CUST001")), r.2)) by (vm_compute; reflexivity).
  exists r.2. split; [exact E |].
  destruct (extracted_identifier_is_well_formed billing_ticket scenario_a (u "CUST001")
              r.2 E) as (Hwf & _ & Hs & Hq).
  split; [exact Hwf |]. split; [exact Hs |].
  rewrite Hq. reflexivity.
Defined.

Lemma malformed_caller_id_is_passed_on_witness :
  malformed_id <> []
  /\ startswith malformed_id (u "CUST") = false
  /\ exists res w',
       process_support_ticket billing_ticket (Some malformed_id) scenario_a
       = (Returns res, w')
       /\ py_truthy (py_get (analysis res) (u "requires_customer_data") PyNone) = true
       /\ classifications (trace w') = [(billing_ticket, Some malformed_id)]
       /\ customer_info res = Some (invalid_format_error (Some malformed_id))
       /\ u "DatabaseAgent" ∈ agents_used res.
Proof.
  split; [done |]. split; [reflexivity |].
  set (r := process_support_ticket billing_ticket (Some malformed_id) scenario_a).
  assert (Hrc : (fun res => py_truthy (py_get (analysis res)
                                         (u "requires_customer_data") PyNone))
                <$> returned r = Some true) by (vm_compute; reflexivity).
  destruct (returns_inv r) as (res & w' & Hrun); [vm_compute; reflexivity |].
  unfold returned in Hrc. rewrite Hrun in Hrc. cbn [fst fmap option_fmap option_map] in Hrc.
  injection Hrc as Hrc.
  exists res, w'. split; [exact Hrun |]. split; [exact Hrc |].
  destruct (malformed_caller_id_is_passed_on billing_ticket malformed_id scenario_a res w'
              ltac:(done) eq_refl Hrun Hrc) as (Hc & _ & Hi & Ha).
  split; [exact Hc |]. by split.
Defined.

End MoreSamples.

Section LooseSamples.

#[local] Existing Instance loose_runtime.

Lemma analyze_ticket_raises_on_a_non_object_witness :
  classified list_answer_world billing_ticket = PyList []
  /\ (forall d, classified list_answer_world billing_ticket <> PyDict d)
  /\ exists msg w',
       process_support_ticket billing_ticket None list_answer_world
       = (Raises (TypeError msg), w')
       /\ tickets w' = tickets list_answer_world.
Proof.
  assert (Hc : classified list_answer_world billing_ticket = PyList [])
    by (vm_compute; reflexivity).
  assert (Hd : forall d, classified list_answer_world billing_ticket <> PyDict d)
    by (intros d; by rewrite Hc).
  split; [exact Hc |]. split; [exact Hd |].
  destruct (analyze_ticket_raises_on_a_non_object billing_ticket list_answer_world Hd)
    as (msg & _ & Hrun).
  destruct (Hrun None) as (w' & Hw' & Ht).
  by exists msg, w'.
Defined.


End LooseSamples.
